(** * TerminalSettings: layered settings resolution

    A shallow embedding of [src/cascadia/TerminalApp/TerminalSettings.cpp]
    (namespace [winrt::TerminalApp::implementation]) together with the
    properties of its colour table, colour-scheme application and
    profile / globals / launch-argument composition.

    Conventions of the embedding:
    - fixed-width integers are [Z] with the conversions written out;
    - [hstring] is [string]; a nullable WinRT reference is an [option];
    - a C++ exception is an [outcome] other than [Returns];
    - a member function is a state transformer over the object
      ([method]), so that what an exception leaves behind in the object
      is part of the model. *)

From Stdlib Require Import ZArith String Lia Floats.SpecFloat.
From stdpp Require Import base option list gmap strings.
From coqutil Require Import Datatypes.RecordSetters.
Import RecordSetters.TriangleBracketNotations.

Local Open Scope Z_scope.

(** ** Machine integers *)

Abbreviation int32_t := Z (only parsing).
Abbreviation uint32_t := Z (only parsing).
Abbreviation size_t := Z (only parsing).
Abbreviation guid := N (only parsing).
Abbreviation hstring := string (only parsing).
Abbreviation double := spec_float (only parsing).

Definition INT_MIN : Z := - 2 ^ 31.
Definition INT_MAX : Z := 2 ^ 31 - 1.

(** The values an [int32_t] parameter can hold. *)
Definition is_int32 (z : Z) : Prop := INT_MIN <= z <= INT_MAX.

(** [gsl::narrow_cast<int>]: a plain [static_cast], that is reduction
    modulo 2^32 into the signed range. *)
Definition narrow_cast_int (z : Z) : int32_t := (z + 2 ^ 31) mod 2 ^ 32 - 2 ^ 31.

(** Integral conversion of a signed argument to [std::size_t] (64 bits on
    the targets of the project), as happens at the call of
    [std::array::at]. *)
Definition to_size_t (z : Z) : size_t := z mod 2 ^ 64.

(** [hstring::empty]. *)
Definition hstring_empty (s : hstring) : bool := bool_decide (s = EmptyString).

(** ** Exceptions *)

(** The failure codes this translation unit raises through the WIL macros. *)
Inductive HRESULT : Set := E_INVALIDARG.

(** What can be thrown: a [wil::ResultException] carrying an [HRESULT]
    (from [THROW_HR_IF] and [THROW_HR_IF_NULL]) or the [std::out_of_range]
    of [std::array::at]. *)
Inductive exception : Set :=
| ResultException (hr : HRESULT)
| out_of_range.

(** How a call ends: it returns, an exception leaves it, or
    [std::terminate] is called because an exception reached the boundary
    of a [noexcept] function. *)
Inductive outcome (A : Type) : Type :=
| Returns (a : A)
| Throws (e : exception)
| Terminates.
Arguments Returns {A} a.
Arguments Throws {A} e.
Arguments Terminates {A}.

#[global] Instance outcome_ret : MRet outcome := fun A a => Returns a.
#[global] Instance outcome_bind : MBind outcome := fun A B f m =>
  match m with
  | Returns a => f a
  | Throws e => Throws e
  | Terminates => Terminates
  end.
#[global] Instance outcome_fmap : FMap outcome := fun A B f m =>
  match m with
  | Returns a => Returns (f a)
  | Throws e => Throws e
  | Terminates => Terminates
  end.

(** ** Data model *)

(** [TerminalApp::ColorScheme]: four distinguished colours and the
    palette.  [Color] is the representation the registry keeps. *)
Module ColorScheme.
Record t {Color : Type} : Type := mk {
  Foreground : Color;
  Background : Color;
  SelectionBackground : Color;
  CursorColor : Color;
  Table : list Color
}.
Arguments t : clear implicits.
Arguments mk {Color}.
End ColorScheme.

(** [TerminalApp::Profile], through the accessors the composer reads. *)
Module Profile.
Record t {Color : Type} : Type := mk {
  HistorySize : int32_t;
  SnapOnInput : bool;
  AltGrAliasing : bool;
  CursorHeight : uint32_t;
  CursorShape : Z;
  Name : hstring;
  UseAcrylic : bool;
  AcrylicOpacity : double;
  FontFace : hstring;
  FontSize : int32_t;
  FontWeight : Z;
  Padding : hstring;
  Commandline : hstring;
  StartingDirectory : hstring;
  TabTitle : hstring;
  SuppressApplicationTitle : bool;
  ColorSchemeName : hstring;
  Foreground : option Color;
  Background : option Color;
  SelectionBackground : option Color;
  CursorColor : option Color;
  ScrollState : Z;
  BackgroundImagePath : hstring;
  BackgroundImageOpacity : double;
  BackgroundImageStretchMode : Z;
  BackgroundImageHorizontalAlignment : Z;
  BackgroundImageVerticalAlignment : Z;
  RetroTerminalEffect : bool;
  AntialiasingMode : Z;
  TabColor : option Color
}.
Arguments t : clear implicits.
Arguments mk {Color}.
End Profile.

(** [TerminalApp::GlobalAppSettings]. *)
Module GlobalAppSettings.
Record t {Color : Type} : Type := mk {
  InitialRows : int32_t;
  InitialCols : int32_t;
  WordDelimiters : hstring;
  CopyOnSelect : bool;
  ForceFullRepaintRendering : bool;
  SoftwareRendering : bool;
  ForceVTInput : bool;
  GetColorSchemes : gmap string (ColorScheme.t Color)
}.
Arguments t : clear implicits.
Arguments mk {Color}.
End GlobalAppSettings.

(** [TerminalApp::NewTerminalArgs]: the launch-time request.  An empty
    field asks for no override. *)
Module NewTerminalArgs.
Record t : Type := mk {
  Profile : hstring;
  Commandline : hstring;
  StartingDirectory : hstring;
  TabTitle : hstring
}.
End NewTerminalArgs.

(** [TerminalApp::CascadiaSettings]: the profile registry and the globals. *)
Module CascadiaSettings.
Record t {Color : Type} : Type := mk {
  Profiles : gmap N (Profile.t Color);
  GlobalSettings : GlobalAppSettings.t Color
}.
Arguments t : clear implicits.
Arguments mk {Color}.

(** Modelled from the spec: [CascadiaSettings::FindProfile] is defined in
    CascadiaSettings.cpp, which is not among the sources; the spec gives
    it as the lookup [findProfile(identity) -> Profile?] in the profile
    registry, null when the identity has no profile. *)
Definition FindProfile {Color : Type} (appSettings : t Color) (profileGuid : guid)
  : option (Profile.t Color) :=
  Profiles appSettings !! profileGuid.
End CascadiaSettings.

(** Modelled from the spec: [COLOR_TABLE_SIZE], the extent of the
    [std::array] member [_colorTable], is declared in a header that is not
    among the sources; the spec fixes the palette at 16 slots. *)
Definition COLOR_TABLE_SIZE : nat := 16.

(** The object under construction: the data members of
    [implementation::TerminalSettings] written by this file. *)
Record TerminalSettings : Type := mkTerminalSettings {
  _HistorySize : int32_t;
  _SnapOnInput : bool;
  _AltGrAliasing : bool;
  _CursorHeight : uint32_t;
  _CursorShape : Z;
  _ProfileName : hstring;
  _UseAcrylic : bool;
  _TintOpacity : double;
  _FontFace : hstring;
  _FontSize : int32_t;
  _FontWeight : Z;
  _Padding : hstring;
  _Commandline : hstring;
  _StartingDirectory : hstring;
  _StartingTitle : hstring;
  _SuppressApplicationTitle : bool;
  _DefaultForeground : uint32_t;
  _DefaultBackground : uint32_t;
  _SelectionBackground : uint32_t;
  _CursorColor : uint32_t;
  _ScrollState : Z;
  _BackgroundImage : hstring;
  _BackgroundImageOpacity : double;
  _BackgroundImageStretchMode : Z;
  _BackgroundImageHorizontalAlignment : Z;
  _BackgroundImageVerticalAlignment : Z;
  _RetroTerminalEffect : bool;
  _AntialiasingMode : Z;
  _TabColor : option uint32_t;
  _InitialRows : int32_t;
  _InitialCols : int32_t;
  _WordDelimiters : hstring;
  _CopyOnSelect : bool;
  _ForceFullRepaintRendering : bool;
  _SoftwareRendering : bool;
  _ForceVTInput : bool;
  _colorTable : list uint32_t
}.

(** One setter per data member, for the update notation [s <| m := v |>]. *)
#[global] Instance set_HistorySize : Setter _HistorySize := _.
#[global] Instance set_SnapOnInput : Setter _SnapOnInput := _.
#[global] Instance set_AltGrAliasing : Setter _AltGrAliasing := _.
#[global] Instance set_CursorHeight : Setter _CursorHeight := _.
#[global] Instance set_CursorShape : Setter _CursorShape := _.
#[global] Instance set_ProfileName : Setter _ProfileName := _.
#[global] Instance set_UseAcrylic : Setter _UseAcrylic := _.
#[global] Instance set_TintOpacity : Setter _TintOpacity := _.
#[global] Instance set_FontFace : Setter _FontFace := _.
#[global] Instance set_FontSize : Setter _FontSize := _.
#[global] Instance set_FontWeight : Setter _FontWeight := _.
#[global] Instance set_Padding : Setter _Padding := _.
#[global] Instance set_Commandline : Setter _Commandline := _.
#[global] Instance set_StartingDirectory : Setter _StartingDirectory := _.
#[global] Instance set_StartingTitle : Setter _StartingTitle := _.
#[global] Instance set_SuppressApplicationTitle : Setter _SuppressApplicationTitle := _.
#[global] Instance set_DefaultForeground : Setter _DefaultForeground := _.
#[global] Instance set_DefaultBackground : Setter _DefaultBackground := _.
#[global] Instance set_SelectionBackground : Setter _SelectionBackground := _.
#[global] Instance set_CursorColor : Setter _CursorColor := _.
#[global] Instance set_ScrollState : Setter _ScrollState := _.
#[global] Instance set_BackgroundImage : Setter _BackgroundImage := _.
#[global] Instance set_BackgroundImageOpacity : Setter _BackgroundImageOpacity := _.
#[global] Instance set_BackgroundImageStretchMode : Setter _BackgroundImageStretchMode := _.
#[global] Instance set_BackgroundImageHorizontalAlignment : Setter _BackgroundImageHorizontalAlignment := _.
#[global] Instance set_BackgroundImageVerticalAlignment : Setter _BackgroundImageVerticalAlignment := _.
#[global] Instance set_RetroTerminalEffect : Setter _RetroTerminalEffect := _.
#[global] Instance set_AntialiasingMode : Setter _AntialiasingMode := _.
#[global] Instance set_TabColor : Setter _TabColor := _.
#[global] Instance set_InitialRows : Setter _InitialRows := _.
#[global] Instance set_InitialCols : Setter _InitialCols := _.
#[global] Instance set_WordDelimiters : Setter _WordDelimiters := _.
#[global] Instance set_CopyOnSelect : Setter _CopyOnSelect := _.
#[global] Instance set_ForceFullRepaintRendering : Setter _ForceFullRepaintRendering := _.
#[global] Instance set_SoftwareRendering : Setter _SoftwareRendering := _.
#[global] Instance set_ForceVTInput : Setter _ForceVTInput := _.
#[global] Instance set_colorTable : Setter _colorTable := _.


(** The invariant the type [std::array<uint32_t, COLOR_TABLE_SIZE>] gives
    the colour table. *)
Definition colorTable_sized (s : TerminalSettings) : Prop :=
  length (_colorTable s) = COLOR_TABLE_SIZE.

(** ** Member functions as state transformers *)

Definition method (A : Type) : Type := TerminalSettings -> outcome A * TerminalSettings.

#[global] Instance method_ret : MRet method := fun A a s => (Returns a, s).
#[global] Instance method_bind : MBind method := fun A B f m s =>
  match m s with
  | (Returns a, s') => f a s'
  | (Throws e, s') => (Throws e, s')
  | (Terminates, s') => (Terminates, s')
  end.

(** Read of the object, [throw], and a write to data members. *)
Definition reads {A : Type} (f : TerminalSettings -> A) : method A :=
  fun s => (Returns (f s), s).
Definition throw {A : Type} (e : exception) : method A :=
  fun s => (Throws e, s).
Definition assign (f : TerminalSettings -> TerminalSettings) : method unit :=
  fun s => (Returns tt, f s).

(** An expression that may throw, evaluated inside a member function. *)
Definition lift {A : Type} (o : outcome A) : method A := fun s => (o, s).

(** [if (c) { m }] without an else branch. *)
Definition when (c : bool) (m : method unit) : method unit :=
  if c then m else mret tt.

(** A [noexcept] function: an exception that reaches its boundary ends the
    program. *)
Definition noexcept {A : Type} (m : method A) : method A := fun s =>
  match m s with
  | (Throws _, s') => (Terminates, s')
  | r => r
  end.

(** WIL: [THROW_HR_IF(hr, condition)] and [THROW_HR_IF_NULL(hr, ptr)]. *)
Definition THROW_HR_IF (hr : HRESULT) (condition : bool) : method unit :=
  if condition then throw (ResultException hr) else mret tt.
Definition THROW_HR_IF_NULL {A : Type} (hr : HRESULT) (ptr : option A) : method A :=
  match ptr with
  | Some a => mret a
  | None => throw (ResultException hr)
  end.

(** [for (int i = lo; i < hi; i++) body(i)]. *)
Definition for_range (lo hi : Z) (body : Z -> method unit) : method unit :=
  foldr (fun i rest => body i ;; rest) (mret tt) (seqZ lo (hi - lo)).

(** [std::array::at(pos)]: the element when [pos < size()], otherwise
    [std::out_of_range]. *)
Definition array_at (a : list uint32_t) (pos : size_t) : outcome uint32_t :=
  if bool_decide (pos < Z.of_nat (length a))
  then match a !! Z.to_nat pos with
       | Some v => Returns v
       | None => Throws out_of_range
       end
  else Throws out_of_range.

(** [a.at(pos) = value]. *)
Definition array_at_assign (a : list uint32_t) (pos : size_t) (value : uint32_t)
  : outcome (list uint32_t) :=
  if bool_decide (pos < Z.of_nat (length a))
  then Returns (<[Z.to_nat pos := value]> a)
  else Throws out_of_range.

(** ** The colour table *)

(** [uint32_t GetColorTableEntry(int32_t index) const noexcept] *)
Definition GetColorTableEntry (index : int32_t) : method uint32_t :=
  noexcept (
    table ← reads _colorTable;
    lift (array_at table (to_size_t index))).

(** [void SetColorTableEntry(int32_t index, uint32_t value)] *)
Definition SetColorTableEntry (index : int32_t) (value : uint32_t) : method unit :=
  size ← reads (fun s => length (_colorTable s));
  let colorTableCount := narrow_cast_int (Z.of_nat size) in
  THROW_HR_IF E_INVALIDARG (bool_decide (index >= colorTableCount)) ;;
  table ← reads _colorTable;
  table' ← lift (array_at_assign table (to_size_t index) value);
  assign (fun s => s <| _colorTable := table' |>).

(** ** Composition of a settings object *)

Section Composition.

(** The registry's colour type and the collaborators this file calls but
    does not define. *)
Context {Color : Type} `{!Inhabited Color}.

(** [til::color{ c }] followed by its conversion to the packed 32-bit
    value the data members hold ([til/color.h] is not among the sources). *)
Variable til_color : Color -> uint32_t.

(** [Profile::GetEvaluatedStartingDirectory] and
    [Profile::GetExpandedBackgroundImagePath]: the expansion of the raw
    paths is done by the profile. *)
Variable GetEvaluatedStartingDirectory : Profile.t Color -> hstring.
Variable GetExpandedBackgroundImagePath : Profile.t Color -> hstring.

(** [CascadiaSettings::GetProfileForArgs]: the identity of the profile a
    (possibly null) launch request selects. *)
Variable GetProfileForArgs :
  CascadiaSettings.t Color -> option NewTerminalArgs.t -> guid.

(** The object as its default member initialisers leave it, before the
    body of the constructor runs (they are in TerminalSettings.h). *)
Variable default_initialized : TerminalSettings.

(** [void _ApplyColorScheme(const ColorScheme& scheme)] *)
Definition _ApplyColorScheme (scheme : ColorScheme.t Color) : method unit :=
  assign (fun s => s <| _DefaultForeground := til_color (ColorScheme.Foreground scheme) |>) ;;
  assign (fun s => s <| _DefaultBackground := til_color (ColorScheme.Background scheme) |>) ;;
  assign (fun s => s <| _SelectionBackground := til_color (ColorScheme.SelectionBackground scheme) |>) ;;
  assign (fun s => s <| _CursorColor := til_color (ColorScheme.CursorColor scheme) |>) ;;
  let table := ColorScheme.Table scheme in
  let tableCount := narrow_cast_int (Z.of_nat (length table)) in
  for_range 0 tableCount (fun i =>
    SetColorTableEntry i (til_color (table !!! Z.to_nat i))).

(** [bool ApplyColorScheme(const hstring& scheme, const IMapView<hstring, ColorScheme>& schemes)] *)
Definition ApplyColorScheme (scheme : hstring) (schemes : gmap string (ColorScheme.t Color))
  : method bool :=
  match schemes !! scheme with
  | Some found =>
      _ApplyColorScheme found ;;
      mret true
  | None => mret false
  end.

(** [void _ApplyProfileSettings(const Profile& profile, const IMapView<hstring, ColorScheme>& schemes)] *)
Definition _ApplyProfileSettings (profile : Profile.t Color)
    (schemes : gmap string (ColorScheme.t Color)) : method unit :=
  assign (fun s => s <| _HistorySize := Profile.HistorySize profile |>) ;;
  assign (fun s => s <| _SnapOnInput := Profile.SnapOnInput profile |>) ;;
  assign (fun s => s <| _AltGrAliasing := Profile.AltGrAliasing profile |>) ;;
  assign (fun s => s <| _CursorHeight := Profile.CursorHeight profile |>) ;;
  assign (fun s => s <| _CursorShape := Profile.CursorShape profile |>) ;;

  assign (fun s => s <| _ProfileName := Profile.Name profile |>) ;;
  assign (fun s => s <| _UseAcrylic := Profile.UseAcrylic profile |>) ;;
  assign (fun s => s <| _TintOpacity := Profile.AcrylicOpacity profile |>) ;;

  assign (fun s => s <| _FontFace := Profile.FontFace profile |>) ;;
  assign (fun s => s <| _FontSize := Profile.FontSize profile |>) ;;
  assign (fun s => s <| _FontWeight := Profile.FontWeight profile |>) ;;
  assign (fun s => s <| _Padding := Profile.Padding profile |>) ;;

  assign (fun s => s <| _Commandline := Profile.Commandline profile |>) ;;

  when (negb (hstring_empty (Profile.StartingDirectory profile)))
    (assign (fun s => s <| _StartingDirectory := GetEvaluatedStartingDirectory profile |>)) ;;

  assign (fun s => s <| _StartingTitle :=
    if negb (hstring_empty (Profile.TabTitle profile))
    then Profile.TabTitle profile
    else Profile.Name profile |>) ;;

  when (Profile.SuppressApplicationTitle profile)
    (assign (fun s => s <| _SuppressApplicationTitle := Profile.SuppressApplicationTitle profile |>)) ;;

  when (negb (hstring_empty (Profile.ColorSchemeName profile)))
    (ApplyColorScheme (Profile.ColorSchemeName profile) schemes ;; mret tt) ;;
  match Profile.Foreground profile with
  | Some Value => assign (fun s => s <| _DefaultForeground := til_color Value |>)
  | None => mret tt
  end ;;
  match Profile.Background profile with
  | Some Value => assign (fun s => s <| _DefaultBackground := til_color Value |>)
  | None => mret tt
  end ;;
  match Profile.SelectionBackground profile with
  | Some Value => assign (fun s => s <| _SelectionBackground := til_color Value |>)
  | None => mret tt
  end ;;
  match Profile.CursorColor profile with
  | Some Value => assign (fun s => s <| _CursorColor := til_color Value |>)
  | None => mret tt
  end ;;

  assign (fun s => s <| _ScrollState := Profile.ScrollState profile |>) ;;

  when (negb (hstring_empty (Profile.BackgroundImagePath profile)))
    (assign (fun s => s <| _BackgroundImage := GetExpandedBackgroundImagePath profile |>)) ;;

  assign (fun s => s <| _BackgroundImageOpacity := Profile.BackgroundImageOpacity profile |>) ;;
  assign (fun s => s <| _BackgroundImageStretchMode := Profile.BackgroundImageStretchMode profile |>) ;;

  assign (fun s => s <| _BackgroundImageHorizontalAlignment :=
    Profile.BackgroundImageHorizontalAlignment profile |>) ;;
  assign (fun s => s <| _BackgroundImageVerticalAlignment :=
    Profile.BackgroundImageVerticalAlignment profile |>) ;;

  assign (fun s => s <| _RetroTerminalEffect := Profile.RetroTerminalEffect profile |>) ;;

  assign (fun s => s <| _AntialiasingMode := Profile.AntialiasingMode profile |>) ;;

  match Profile.TabColor profile with
  | Some Value => assign (fun s => s <| _TabColor := Some (til_color Value) |>)
  | None => mret tt
  end.

(** [void _ApplyGlobalSettings(const GlobalAppSettings& globalSettings) noexcept] *)
Definition _ApplyGlobalSettings (globalSettings : GlobalAppSettings.t Color) : method unit :=
  noexcept (
    assign (fun s => s <| _InitialRows := GlobalAppSettings.InitialRows globalSettings |>) ;;
    assign (fun s => s <| _InitialCols := GlobalAppSettings.InitialCols globalSettings |>) ;;

    assign (fun s => s <| _WordDelimiters := GlobalAppSettings.WordDelimiters globalSettings |>) ;;
    assign (fun s => s <| _CopyOnSelect := GlobalAppSettings.CopyOnSelect globalSettings |>) ;;
    assign (fun s => s <| _ForceFullRepaintRendering :=
      GlobalAppSettings.ForceFullRepaintRendering globalSettings |>) ;;
    assign (fun s => s <| _SoftwareRendering := GlobalAppSettings.SoftwareRendering globalSettings |>) ;;
    assign (fun s => s <| _ForceVTInput := GlobalAppSettings.ForceVTInput globalSettings |>)).

(** The body of the constructor
    [TerminalSettings(const CascadiaSettings& appSettings, winrt::guid profileGuid)]. *)
Definition TerminalSettings_ctor (appSettings : CascadiaSettings.t Color) (profileGuid : guid)
  : method unit :=
  profile ← THROW_HR_IF_NULL E_INVALIDARG (CascadiaSettings.FindProfile appSettings profileGuid);

  let globals := CascadiaSettings.GlobalSettings appSettings in
  _ApplyProfileSettings profile (GlobalAppSettings.GetColorSchemes globals) ;;
  _ApplyGlobalSettings globals.

(** Running a constructor body on the default-initialised members: the
    object exists only if the body returns; an exception destroys the
    members written so far. *)
Definition construct (body : method unit) : outcome TerminalSettings :=
  match body default_initialized with
  | (Returns _, s) => Returns s
  | (Throws e, _) => Throws e
  | (Terminates, _) => Terminates
  end.

(** [TerminalSettings settings{ appSettings, profileGuid }] *)
Definition new_TerminalSettings (appSettings : CascadiaSettings.t Color) (profileGuid : guid)
  : outcome TerminalSettings :=
  construct (TerminalSettings_ctor appSettings profileGuid).

(** Calls of member functions on a local object, whose state afterwards
    is what the caller goes on with. *)
Definition on (settings : TerminalSettings) (m : method unit) : outcome TerminalSettings :=
  match m settings with
  | (Returns _, s) => Returns s
  | (Throws e, _) => Throws e
  | (Terminates, _) => Terminates
  end.

(** The property setters [Commandline(value)], [StartingDirectory(value)]
    and [StartingTitle(value)] that the header generates for the members
    of the same names. *)
Definition put_Commandline (value : hstring) : method unit :=
  assign (fun s => s <| _Commandline := value |>).
Definition put_StartingDirectory (value : hstring) : method unit :=
  assign (fun s => s <| _StartingDirectory := value |>).
Definition put_StartingTitle (value : hstring) : method unit :=
  assign (fun s => s <| _StartingTitle := value |>).

(** [static std::tuple<guid, TerminalSettings> BuildSettings(const CascadiaSettings& appSettings, const NewTerminalArgs& newTerminalArgs)] *)
Definition BuildSettings (appSettings : CascadiaSettings.t Color)
    (newTerminalArgs : option NewTerminalArgs.t) : outcome (guid * TerminalSettings) :=
  let profileGuid := GetProfileForArgs appSettings newTerminalArgs in
  settings ← new_TerminalSettings appSettings profileGuid;

  settings ← on settings
    match newTerminalArgs with
    | Some args =>
        when (negb (hstring_empty (NewTerminalArgs.Commandline args)))
          (put_Commandline (NewTerminalArgs.Commandline args)) ;;
        when (negb (hstring_empty (NewTerminalArgs.StartingDirectory args)))
          (put_StartingDirectory (NewTerminalArgs.StartingDirectory args)) ;;
        when (negb (hstring_empty (NewTerminalArgs.TabTitle args)))
          (put_StartingTitle (NewTerminalArgs.TabTitle args))
    | None => mret tt
    end;

  mret (profileGuid, settings).

(** ** Well-formed registries *)

(** The data model gives every colour scheme a palette of exactly
    [COLOR_TABLE_SIZE] colours. *)
Definition schemes_sized (schemes : gmap string (ColorScheme.t Color)) : Prop :=
  forall name scheme,
    schemes !! name = Some scheme ->
    length (ColorScheme.Table scheme) = COLOR_TABLE_SIZE.

(** The scheme a profile refers to: none when it names none or names one
    the registry does not have. *)
Definition referenced_scheme (profile : Profile.t Color)
    (schemes : gmap string (ColorScheme.t Color)) : option (ColorScheme.t Color) :=
  if hstring_empty (Profile.ColorSchemeName profile) then None
  else schemes !! Profile.ColorSchemeName profile.

(** ** Sample registry

    The profiles PA ("Alpha", no tab title) and PB ("Beta", tab title
    "Custom"), one 16-colour scheme and a launch request, on which the
    statements below are exercised.  Colours are 32-bit integers here and
    the packing keeps the low 24 bits. *)

Definition sample_scheme : ColorScheme.t Z :=
  ColorScheme.mk 0xCCCCCC 0x0C0C0C 0xFFFFFF 0xFFFFFF
    [0x0C0C0C; 0xC50F1F; 0x13A10E; 0xC19C00; 0x0037DA; 0x881798; 0x3A96DD; 0xCCCCCC;
     0x767676; 0xE74856; 0x16C60C; 0xF9F1A5; 0x3B78FF; 0xB4009E; 0x61D6D6; 0xF2F2F2].

Definition sample_schemes : gmap string (ColorScheme.t Z) :=
  {[ "Campbell"%string := sample_scheme ]}.

Definition sample_PA : Profile.t Z :=
  Profile.mk 9001 true true 25 0 "Alpha" false (S754_zero false) "Consolas" 12 400 "8, 8, 8, 8"
    "bash" "%USERPROFILE%" "" false "Campbell"
    (Some 0x112233) None None None
    0 "" (S754_zero false) 0 1 1 false 0 (Some 0x445566).

Definition sample_PB : Profile.t Z :=
  Profile.mk 9001 true true 25 0 "Beta" false (S754_zero false) "Consolas" 12 400 "8, 8, 8, 8"
    "cmd.exe" "" "Custom" true "No such scheme"
    None None None None
    0 "" (S754_zero false) 0 1 1 false 0 None.

Definition sample_globals : GlobalAppSettings.t Z :=
  GlobalAppSettings.mk 30 120 " /\()" true false true false sample_schemes.

Definition sample_appSettings : CascadiaSettings.t Z :=
  CascadiaSettings.mk {[ 1%N := sample_PA; 2%N := sample_PB ]} sample_globals.

Definition sample_args : NewTerminalArgs.t :=
  NewTerminalArgs.mk "Alpha" "zsh -l" "" "".

Definition sample_title_only : NewTerminalArgs.t :=
  NewTerminalArgs.mk "Alpha" "" "" "Build".

Definition sample_default : TerminalSettings :=
  mkTerminalSettings 0 false false 0 0 "" false (S754_zero false) "" 0 0 "" "" "" "" false
    0xF2F2F2 0x0C0C0C 0xFFFFFF 0xFFFFFF 0 "" (S754_zero false) 0 0 0 false 0 None
    0 0 "" false false false false (replicate COLOR_TABLE_SIZE 0).

Definition sample_til_color (c : Z) : uint32_t := Z.land c 0xFFFFFF.

Definition sample_GetEvaluatedStartingDirectory (profile : Profile.t Z) : hstring :=
  if hstring_empty (Profile.StartingDirectory profile) then "" else "C:\Users\alpha".

Definition sample_GetExpandedBackgroundImagePath (profile : Profile.t Z) : hstring :=
  Profile.BackgroundImagePath profile.

Definition sample_GetProfileForArgs (appSettings : CascadiaSettings.t Z)
    (newTerminalArgs : option NewTerminalArgs.t) : guid :=
  match newTerminalArgs with
  | Some args => if bool_decide (NewTerminalArgs.Profile args = "Beta") then 2%N else 1%N
  | None => 1%N
  end.

(** Schemes whose tables are not sixteen colours long, and a launch
    request that overrides nothing. *)
Definition sample_long_scheme : ColorScheme.t Z :=
  ColorScheme.mk 0x010101 0x020202 0x030303 0x040404 (seqZ 0x100 17).

Definition sample_short_scheme : ColorScheme.t Z :=
  ColorScheme.mk 0x010101 0x020202 0x030303 0x040404 [0xAA; 0xBB].

Definition sample_more_schemes : gmap string (ColorScheme.t Z) :=
  {[ "Campbell"%string := sample_scheme;
     "Long"%string := sample_long_scheme;
     "Short"%string := sample_short_scheme ]}.

Definition sample_no_override : NewTerminalArgs.t :=
  NewTerminalArgs.mk "Alpha" "" "" "".

(** ** Proof support *)

(** Unfolds the plumbing of [method] and [outcome]. *)
Ltac run :=
  unfold mbind, mret, method_bind, method_ret, outcome_bind, outcome_ret,
    reads, throw, assign, lift, when, noexcept, on, THROW_HR_IF, THROW_HR_IF_NULL.

Lemma narrow_cast_int_id (z : Z) : is_int32 z -> narrow_cast_int z = z.
Proof.
  unfold is_int32, INT_MIN, INT_MAX, narrow_cast_int. intros Hz.
  rewrite Z.mod_small; lia.
Qed.

Lemma to_size_t_nonneg (z : Z) : 0 <= z -> is_int32 z -> to_size_t z = z.
Proof.
  unfold is_int32, INT_MIN, INT_MAX, to_size_t. intros H0 Hz.
  apply Z.mod_small. lia.
Qed.

Lemma to_size_t_negative (z : Z) : z < 0 -> is_int32 z -> 2 ^ 63 <= to_size_t z.
Proof.
  unfold is_int32, INT_MIN, INT_MAX, to_size_t. intros H0 Hz.
  replace z with (z + 2 ^ 64 + (-1) * 2 ^ 64) by lia.
  rewrite Z.mod_add by lia. rewrite Z.mod_small; lia.
Qed.

Lemma colorTableCount_sized (s : TerminalSettings) :
  colorTable_sized s -> narrow_cast_int (Z.of_nat (length (_colorTable s))) = 16.
Proof. unfold colorTable_sized, COLOR_TABLE_SIZE. intros ->. reflexivity. Qed.

(** Reading a slot of the table. *)
Lemma GetColorTableEntry_in_range (s : TerminalSettings) (index : int32_t) :
  colorTable_sized s -> 0 <= index < 16 ->
  exists v, _colorTable s !! Z.to_nat index = Some v /\
            GetColorTableEntry index s = (Returns v, s).
Proof.
  intros Hs Hi. unfold colorTable_sized, COLOR_TABLE_SIZE in Hs.
  destruct (lookup_lt_is_Some_2 (_colorTable s) (Z.to_nat index)) as [v Hv]; [lia|].
  exists v. split; [exact Hv|].
  unfold GetColorTableEntry, array_at. run.
  rewrite to_size_t_nonneg by (unfold is_int32, INT_MIN, INT_MAX; lia).
  rewrite bool_decide_eq_true_2 by lia. rewrite Hv. reflexivity.
Qed.

(** An index that is not a slot ends the program: the [std::out_of_range]
    of [at] meets the [noexcept] of the function. *)
Lemma GetColorTableEntry_out_of_range (s : TerminalSettings) (index : int32_t) :
  colorTable_sized s -> is_int32 index -> ~ (0 <= index < 16) ->
  GetColorTableEntry index s = (Terminates, s).
Proof.
  intros Hs Hi Hout. unfold colorTable_sized, COLOR_TABLE_SIZE in Hs.
  unfold GetColorTableEntry, array_at. run.
  rewrite bool_decide_eq_false_2; [reflexivity|].
  rewrite Hs. destruct (Z.lt_ge_cases index 0) as [Hneg|Hpos].
  - pose proof (to_size_t_negative index Hneg Hi). lia.
  - rewrite to_size_t_nonneg by assumption. lia.
Qed.

(** Writing a slot of the table. *)
Lemma SetColorTableEntry_in_range (s : TerminalSettings) (index : int32_t) (value : uint32_t) :
  colorTable_sized s -> 0 <= index < 16 ->
  SetColorTableEntry index value s
  = (Returns tt, s <| _colorTable := <[Z.to_nat index := value]> (_colorTable s) |>).
Proof.
  intros Hs Hi. unfold SetColorTableEntry, array_at_assign. run.
  rewrite colorTableCount_sized by assumption.
  rewrite to_size_t_nonneg by (unfold is_int32, INT_MIN, INT_MAX; lia).
  unfold colorTable_sized, COLOR_TABLE_SIZE in Hs.
  case_bool_decide; [lia|]. cbn. case_bool_decide; [reflexivity|lia].
Qed.

(** The guard of [SetColorTableEntry] rejects what lies above the table. *)
Lemma SetColorTableEntry_above (s : TerminalSettings) (index : int32_t) (value : uint32_t) :
  colorTable_sized s -> 16 <= index ->
  SetColorTableEntry index value s = (Throws (ResultException E_INVALIDARG), s).
Proof.
  intros Hs Hi. unfold SetColorTableEntry. run.
  rewrite colorTableCount_sized by assumption.
  case_bool_decide; [reflexivity|lia].
Qed.

(** A negative index passes the guard, which has no lower bound, and is
    caught by [at] after its conversion to [size_t]. *)
Lemma SetColorTableEntry_negative (s : TerminalSettings) (index : int32_t) (value : uint32_t) :
  colorTable_sized s -> is_int32 index -> index < 0 ->
  SetColorTableEntry index value s = (Throws out_of_range, s).
Proof.
  intros Hs Hi Hneg. unfold SetColorTableEntry, array_at_assign. run.
  rewrite colorTableCount_sized by assumption.
  pose proof (to_size_t_negative index Hneg Hi).
  unfold colorTable_sized, COLOR_TABLE_SIZE in Hs.
  case_bool_decide; [lia|]. cbn. case_bool_decide; [lia|reflexivity].
Qed.

Lemma SetColorTableEntry_sized (s s' : TerminalSettings) (index : int32_t) (value : uint32_t)
    (o : outcome unit) :
  colorTable_sized s -> SetColorTableEntry index value s = (o, s') -> colorTable_sized s'.
Proof.
  intros Hs. unfold SetColorTableEntry, array_at_assign. run.
  case_bool_decide; cbn; [intros [= <- <-]; assumption|].
  case_bool_decide; intros [= <- <-]; [|assumption].
  unfold colorTable_sized in *. rewrite <- Hs. apply length_insert.
Qed.

(** Record plumbing: writing a member twice, and writing back what was read. *)
Lemma colorTable_put_put (s : TerminalSettings) (t t' : list uint32_t) :
  s <| _colorTable := t |> <| _colorTable := t' |> = s <| _colorTable := t' |>.
Proof. reflexivity. Qed.

Lemma colorTable_put_same (s : TerminalSettings) :
  s <| _colorTable := _colorTable s |> = s.
Proof. destruct s. reflexivity. Qed.

(** ** Applying a colour scheme *)

(** The loop of [_ApplyColorScheme], started at slot [k] with [n] slots
    to go: the slots [k .. k+n-1] take the new values in turn, those
    before and after keep theirs. *)
Lemma SetColorTableEntry_loop (f : Z -> uint32_t) (n k : nat) (s : TerminalSettings) :
  colorTable_sized s -> (k + n <= COLOR_TABLE_SIZE)%nat ->
  foldr (fun i rest => SetColorTableEntry i (f i) ;; rest) (mret tt)
        (seqZ (Z.of_nat k) (Z.of_nat n)) s
  = (Returns tt,
     s <| _colorTable :=
            take k (_colorTable s) ++ (f <$> seqZ (Z.of_nat k) (Z.of_nat n))
            ++ drop (k + n) (_colorTable s) |>).
Proof.
  revert k s. induction n as [|n IH]; intros k s Hs Hk.
  - rewrite seqZ_nil by lia. cbn [foldr fmap list_fmap app].
    rewrite Nat.add_0_r, take_drop, colorTable_put_same. reflexivity.
  - rewrite seqZ_cons by lia.
    replace (Z.succ (Z.of_nat k)) with (Z.of_nat (S k)) by lia.
    replace (Z.pred (Z.of_nat (S n))) with (Z.of_nat n) by lia.
    cbn [foldr]. unfold mbind at 1, method_bind at 1.
    unfold COLOR_TABLE_SIZE in Hk.
    rewrite SetColorTableEntry_in_range by (assumption || lia).
    rewrite Nat2Z.id.
    assert (Hlen : (k < length (_colorTable s))%nat).
    { unfold colorTable_sized, COLOR_TABLE_SIZE in Hs. lia. }
    rewrite IH.
    + rewrite colorTable_put_put. f_equal. f_equal.
      change (_colorTable (s <| _colorTable := ?t |>)) with t.
      rewrite (take_S_r _ _ (f (Z.of_nat k))) by (apply list_lookup_insert_eq; exact Hlen).
      rewrite take_insert_ge by lia.
      rewrite drop_insert_lt by lia.
      rewrite fmap_cons, <- app_assoc. cbn [app].
      replace (k + S n)%nat with (S k + n)%nat by lia. reflexivity.
    + unfold colorTable_sized in *.
      change (_colorTable (s <| _colorTable := ?t |>)) with t.
      rewrite length_insert. exact Hs.
    + unfold COLOR_TABLE_SIZE. lia.
Qed.

(** Reading the scheme's table by index over all its indices gives the
    table. *)
Lemma fmap_index_seqZ {A B : Type} `{!Inhabited A} (g : A -> B) (l : list A) :
  (fun i : Z => g (l !!! Z.to_nat i)) <$> seqZ 0 (Z.of_nat (length l)) = g <$> l.
Proof.
  apply list_eq. intros i. rewrite !list_lookup_fmap.
  destruct (l !! i) as [x|] eqn:Hx.
  - pose proof (lookup_lt_Some _ _ _ Hx) as Hi.
    rewrite lookup_seqZ_lt by lia. cbn.
    replace (Z.to_nat (0 + Z.of_nat i)) with i by lia.
    rewrite (list_lookup_total_correct _ _ _ Hx). reflexivity.
  - pose proof (lookup_ge_None_1 _ _ Hx) as Hi.
    rewrite lookup_seqZ_ge by lia. reflexivity.
Qed.

(** What [_ApplyColorScheme] does with a scheme of sixteen colours. *)
Lemma _ApplyColorScheme_sixteen (scheme : ColorScheme.t Color) (s : TerminalSettings) :
  colorTable_sized s ->
  length (ColorScheme.Table scheme) = COLOR_TABLE_SIZE ->
  _ApplyColorScheme scheme s
  = (Returns tt,
     s <| _DefaultForeground := til_color (ColorScheme.Foreground scheme) |>
       <| _DefaultBackground := til_color (ColorScheme.Background scheme) |>
       <| _SelectionBackground := til_color (ColorScheme.SelectionBackground scheme) |>
       <| _CursorColor := til_color (ColorScheme.CursorColor scheme) |>
       <| _colorTable := til_color <$> ColorScheme.Table scheme |>).
Proof.
  intros Hs Hlen. unfold _ApplyColorScheme, for_range.
  rewrite Hlen. change (narrow_cast_int (Z.of_nat COLOR_TABLE_SIZE) - 0) with (Z.of_nat 16).
  unfold mbind at 1 2 3 4, method_bind at 1 2 3 4, assign. cbv iota beta.
  rewrite (SetColorTableEntry_loop
             (fun i => til_color (ColorScheme.Table scheme !!! Z.to_nat i)) 16 0)
    by (assumption || (unfold COLOR_TABLE_SIZE; lia)).
  f_equal. f_equal.
  change (_colorTable (?r <| _CursorColor := ?t |>)) with (_colorTable r).
  change (_colorTable (?r <| _SelectionBackground := ?t |>)) with (_colorTable r).
  change (_colorTable (?r <| _DefaultBackground := ?t |>)) with (_colorTable r).
  change (_colorTable (?r <| _DefaultForeground := ?t |>)) with (_colorTable r).
  rewrite take_0, drop_ge by (unfold colorTable_sized, COLOR_TABLE_SIZE in Hs; lia).
  rewrite app_nil_r. cbn [app].
  rewrite <- (fmap_index_seqZ til_color (ColorScheme.Table scheme)), Hlen. reflexivity.
Qed.


(** [ApplyColorScheme] on a registry of sixteen-colour schemes. *)
Lemma ApplyColorScheme_sized (name : hstring) (schemes : gmap string (ColorScheme.t Color))
    (s : TerminalSettings) :
  colorTable_sized s -> schemes_sized schemes ->
  ApplyColorScheme name schemes s
  = match schemes !! name with
    | Some found =>
        (Returns true,
         s <| _DefaultForeground := til_color (ColorScheme.Foreground found) |>
           <| _DefaultBackground := til_color (ColorScheme.Background found) |>
           <| _SelectionBackground := til_color (ColorScheme.SelectionBackground found) |>
           <| _CursorColor := til_color (ColorScheme.CursorColor found) |>
           <| _colorTable := til_color <$> ColorScheme.Table found |>)
    | None => (Returns false, s)
    end.
Proof.
  intros Hs Hschemes. unfold ApplyColorScheme.
  destruct (schemes !! name) as [found|] eqn:Hfound; [|reflexivity].
  unfold mbind, method_bind.
  rewrite _ApplyColorScheme_sixteen by eauto. reflexivity.
Qed.

(** C3: for a scheme name the registry does not have, [ApplyColorScheme]
    returns [false] and leaves the whole object, its colours included, as
    it was. *)
Theorem ApplyColorScheme_unknown (name : hstring)
    (schemes : gmap string (ColorScheme.t Color)) (s : TerminalSettings) :
  schemes !! name = None ->
  ApplyColorScheme name schemes s = (Returns false, s).
Proof. intros Hnone. unfold ApplyColorScheme. rewrite Hnone. reflexivity. Qed.

(** C4: for a scheme name the registry has, [ApplyColorScheme] returns
    [true] and the object then holds the scheme's foreground, background,
    selection background and cursor colours and, slot by slot from 0 to
    15, the sixteen colours of its table. *)
Theorem ApplyColorScheme_known (name : hstring)
    (schemes : gmap string (ColorScheme.t Color)) (found : ColorScheme.t Color)
    (s : TerminalSettings) :
  colorTable_sized s ->
  length (ColorScheme.Table found) = COLOR_TABLE_SIZE ->
  schemes !! name = Some found ->
  exists s',
    ApplyColorScheme name schemes s = (Returns true, s') /\
    _DefaultForeground s' = til_color (ColorScheme.Foreground found) /\
    _DefaultBackground s' = til_color (ColorScheme.Background found) /\
    _SelectionBackground s' = til_color (ColorScheme.SelectionBackground found) /\
    _CursorColor s' = til_color (ColorScheme.CursorColor found) /\
    _colorTable s' = til_color <$> ColorScheme.Table found /\
    forall index, 0 <= index < 16 ->
      exists c, ColorScheme.Table found !! Z.to_nat index = Some c /\
                GetColorTableEntry index s' = (Returns (til_color c), s').
Proof.
  intros Hs Hlen Hfound. unfold ApplyColorScheme. rewrite Hfound.
  unfold mbind, method_bind.
  rewrite _ApplyColorScheme_sixteen by assumption.
  eexists. split; [reflexivity|]. do 5 (split; [reflexivity|]).
  intros index Hindex.
  destruct (lookup_lt_is_Some_2 (ColorScheme.Table found) (Z.to_nat index)) as [c Hc].
  { rewrite Hlen. unfold COLOR_TABLE_SIZE. lia. }
  exists c. split; [exact Hc|].
  match goal with |- GetColorTableEntry _ ?s' = _ =>
    destruct (GetColorTableEntry_in_range s' index) as (v & Hv & Hget)
  end.
  - unfold colorTable_sized.
    change (length (til_color <$> ColorScheme.Table found) = COLOR_TABLE_SIZE).
    rewrite length_fmap. exact Hlen.
  - exact Hindex.
  - rewrite Hget. f_equal. f_equal.
    change (_colorTable _) with (til_color <$> ColorScheme.Table found) in Hv.
    rewrite list_lookup_fmap, Hc in Hv. cbn in Hv. congruence.
Qed.


(** ** The profile layer *)

(** The members after [_ApplyProfileSettings], one by one: which layer
    each of them comes from. *)
Lemma _ApplyProfileSettings_resolved (profile : Profile.t Color)
    (schemes : gmap string (ColorScheme.t Color)) (s : TerminalSettings) :
  colorTable_sized s -> schemes_sized schemes ->
  _ApplyProfileSettings profile schemes s
  = (Returns tt,
     {| _HistorySize := Profile.HistorySize profile;
        _SnapOnInput := Profile.SnapOnInput profile;
        _AltGrAliasing := Profile.AltGrAliasing profile;
        _CursorHeight := Profile.CursorHeight profile;
        _CursorShape := Profile.CursorShape profile;
        _ProfileName := Profile.Name profile;
        _UseAcrylic := Profile.UseAcrylic profile;
        _TintOpacity := Profile.AcrylicOpacity profile;
        _FontFace := Profile.FontFace profile;
        _FontSize := Profile.FontSize profile;
        _FontWeight := Profile.FontWeight profile;
        _Padding := Profile.Padding profile;
        _Commandline := Profile.Commandline profile;
        _StartingDirectory :=
          if hstring_empty (Profile.StartingDirectory profile) then _StartingDirectory s
          else GetEvaluatedStartingDirectory profile;
        _StartingTitle :=
          if hstring_empty (Profile.TabTitle profile) then Profile.Name profile
          else Profile.TabTitle profile;
        _SuppressApplicationTitle :=
          if Profile.SuppressApplicationTitle profile then true
          else _SuppressApplicationTitle s;
        _DefaultForeground :=
          match Profile.Foreground profile, referenced_scheme profile schemes with
          | Some Value, _ => til_color Value
          | None, Some found => til_color (ColorScheme.Foreground found)
          | None, None => _DefaultForeground s
          end;
        _DefaultBackground :=
          match Profile.Background profile, referenced_scheme profile schemes with
          | Some Value, _ => til_color Value
          | None, Some found => til_color (ColorScheme.Background found)
          | None, None => _DefaultBackground s
          end;
        _SelectionBackground :=
          match Profile.SelectionBackground profile, referenced_scheme profile schemes with
          | Some Value, _ => til_color Value
          | None, Some found => til_color (ColorScheme.SelectionBackground found)
          | None, None => _SelectionBackground s
          end;
        _CursorColor :=
          match Profile.CursorColor profile, referenced_scheme profile schemes with
          | Some Value, _ => til_color Value
          | None, Some found => til_color (ColorScheme.CursorColor found)
          | None, None => _CursorColor s
          end;
        _ScrollState := Profile.ScrollState profile;
        _BackgroundImage :=
          if hstring_empty (Profile.BackgroundImagePath profile) then _BackgroundImage s
          else GetExpandedBackgroundImagePath profile;
        _BackgroundImageOpacity := Profile.BackgroundImageOpacity profile;
        _BackgroundImageStretchMode := Profile.BackgroundImageStretchMode profile;
        _BackgroundImageHorizontalAlignment :=
          Profile.BackgroundImageHorizontalAlignment profile;
        _BackgroundImageVerticalAlignment :=
          Profile.BackgroundImageVerticalAlignment profile;
        _RetroTerminalEffect := Profile.RetroTerminalEffect profile;
        _AntialiasingMode := Profile.AntialiasingMode profile;
        _TabColor :=
          match Profile.TabColor profile with
          | Some Value => Some (til_color Value)
          | None => _TabColor s
          end;
        _InitialRows := _InitialRows s;
        _InitialCols := _InitialCols s;
        _WordDelimiters := _WordDelimiters s;
        _CopyOnSelect := _CopyOnSelect s;
        _ForceFullRepaintRendering := _ForceFullRepaintRendering s;
        _SoftwareRendering := _SoftwareRendering s;
        _ForceVTInput := _ForceVTInput s;
        _colorTable :=
          match referenced_scheme profile schemes with
          | Some found => til_color <$> ColorScheme.Table found
          | None => _colorTable s
          end |}).
Proof.
  intros Hs Hschemes. unfold _ApplyProfileSettings, referenced_scheme.
  destruct (hstring_empty (Profile.StartingDirectory profile));
  destruct (hstring_empty (Profile.TabTitle profile));
  destruct (Profile.SuppressApplicationTitle profile);
  destruct (hstring_empty (Profile.ColorSchemeName profile));
  cbv [mbind method_bind assign when negb mret method_ret];
  rewrite ?ApplyColorScheme_sized by (exact Hs || exact Hschemes);
  destruct (schemes !! Profile.ColorSchemeName profile);
  destruct (Profile.Foreground profile), (Profile.Background profile),
    (Profile.SelectionBackground profile), (Profile.CursorColor profile);
  destruct (hstring_empty (Profile.BackgroundImagePath profile));
  destruct (Profile.TabColor profile);
  reflexivity.
Qed.

(** ** The colour table, as claimed *)

(** C1 (as amended): an index in [0,16) is read and written, the write
    touching that slot only; any other [int32_t] index is neither read nor
    written and leaves the object as it was; and [SetColorTableEntry]
    refuses every index from 16 up with [E_INVALIDARG]. *)
Theorem color_table_index_checked (s : TerminalSettings) (index : int32_t) (value : uint32_t) :
  colorTable_sized s -> is_int32 index ->
  (0 <= index < 16 ->
     (exists v, _colorTable s !! Z.to_nat index = Some v /\
                GetColorTableEntry index s = (Returns v, s)) /\
     SetColorTableEntry index value s
     = (Returns tt, s <| _colorTable := <[Z.to_nat index := value]> (_colorTable s) |>)) /\
  (~ (0 <= index < 16) ->
     (forall v, fst (GetColorTableEntry index s) <> Returns v) /\
     fst (SetColorTableEntry index value s) <> Returns tt /\
     snd (GetColorTableEntry index s) = s /\
     snd (SetColorTableEntry index value s) = s) /\
  (16 <= index ->
     SetColorTableEntry index value s = (Throws (ResultException E_INVALIDARG), s)).
Proof.
  intros Hs Hi. split; [|split].
  - intros Hin. split.
    + apply GetColorTableEntry_in_range; assumption.
    + apply SetColorTableEntry_in_range; assumption.
  - intros Hout.
    rewrite GetColorTableEntry_out_of_range by assumption.
    destruct (Z.lt_ge_cases index 0) as [Hneg|Hpos].
    + rewrite SetColorTableEntry_negative by assumption.
      repeat split; intros; discriminate.
    + rewrite SetColorTableEntry_above by (assumption || lia).
      repeat split; intros; discriminate.
  - intros Habove. apply SetColorTableEntry_above; assumption.
Qed.

(** ** The global layer *)

Lemma _ApplyGlobalSettings_resolved (globalSettings : GlobalAppSettings.t Color)
    (s : TerminalSettings) :
  _ApplyGlobalSettings globalSettings s
  = (Returns tt,
     s <| _InitialRows := GlobalAppSettings.InitialRows globalSettings |>
       <| _InitialCols := GlobalAppSettings.InitialCols globalSettings |>
       <| _WordDelimiters := GlobalAppSettings.WordDelimiters globalSettings |>
       <| _CopyOnSelect := GlobalAppSettings.CopyOnSelect globalSettings |>
       <| _ForceFullRepaintRendering :=
            GlobalAppSettings.ForceFullRepaintRendering globalSettings |>
       <| _SoftwareRendering := GlobalAppSettings.SoftwareRendering globalSettings |>
       <| _ForceVTInput := GlobalAppSettings.ForceVTInput globalSettings |>).
Proof. reflexivity. Qed.

(** C8: [_ApplyGlobalSettings] always returns; afterwards the seven
    members of the global layer hold the globals' values whatever they
    held before, and each of the thirty other members, the colours and the
    colour table among them, holds what it held before. *)
Theorem _ApplyGlobalSettings_frame (globalSettings : GlobalAppSettings.t Color)
    (s : TerminalSettings) :
  exists s',
    _ApplyGlobalSettings globalSettings s = (Returns tt, s') /\
    (_InitialRows s' = GlobalAppSettings.InitialRows globalSettings /\
     _InitialCols s' = GlobalAppSettings.InitialCols globalSettings /\
     _WordDelimiters s' = GlobalAppSettings.WordDelimiters globalSettings /\
     _CopyOnSelect s' = GlobalAppSettings.CopyOnSelect globalSettings /\
     _ForceFullRepaintRendering s' = GlobalAppSettings.ForceFullRepaintRendering globalSettings /\
     _SoftwareRendering s' = GlobalAppSettings.SoftwareRendering globalSettings /\
     _ForceVTInput s' = GlobalAppSettings.ForceVTInput globalSettings) /\
    (_HistorySize s' = _HistorySize s /\
     _SnapOnInput s' = _SnapOnInput s /\
     _AltGrAliasing s' = _AltGrAliasing s /\
     _CursorHeight s' = _CursorHeight s /\
     _CursorShape s' = _CursorShape s /\
     _ProfileName s' = _ProfileName s /\
     _UseAcrylic s' = _UseAcrylic s /\
     _TintOpacity s' = _TintOpacity s /\
     _FontFace s' = _FontFace s /\
     _FontSize s' = _FontSize s /\
     _FontWeight s' = _FontWeight s /\
     _Padding s' = _Padding s /\
     _Commandline s' = _Commandline s /\
     _StartingDirectory s' = _StartingDirectory s /\
     _StartingTitle s' = _StartingTitle s /\
     _SuppressApplicationTitle s' = _SuppressApplicationTitle s /\
     _DefaultForeground s' = _DefaultForeground s /\
     _DefaultBackground s' = _DefaultBackground s /\
     _SelectionBackground s' = _SelectionBackground s /\
     _CursorColor s' = _CursorColor s /\
     _ScrollState s' = _ScrollState s /\
     _BackgroundImage s' = _BackgroundImage s /\
     _BackgroundImageOpacity s' = _BackgroundImageOpacity s /\
     _BackgroundImageStretchMode s' = _BackgroundImageStretchMode s /\
     _BackgroundImageHorizontalAlignment s' = _BackgroundImageHorizontalAlignment s /\
     _BackgroundImageVerticalAlignment s' = _BackgroundImageVerticalAlignment s /\
     _RetroTerminalEffect s' = _RetroTerminalEffect s /\
     _AntialiasingMode s' = _AntialiasingMode s /\
     _TabColor s' = _TabColor s /\
     _colorTable s' = _colorTable s).
Proof.
  eexists. split; [apply _ApplyGlobalSettings_resolved|].
  split; repeat split; reflexivity.
Qed.


(** ** Construction *)

Lemma new_TerminalSettings_missing (appSettings : CascadiaSettings.t Color) (profileGuid : guid) :
  CascadiaSettings.FindProfile appSettings profileGuid = None ->
  new_TerminalSettings appSettings profileGuid = Throws (ResultException E_INVALIDARG).
Proof.
  intros Hfind. unfold new_TerminalSettings, construct, TerminalSettings_ctor.
  rewrite Hfind. reflexivity.
Qed.

(** With the profile found, construction is the profile layer followed by
    the global layer, both run on the default-initialised members. *)
Lemma new_TerminalSettings_found (appSettings : CascadiaSettings.t Color) (profileGuid : guid)
    (profile : Profile.t Color) :
  let globals := CascadiaSettings.GlobalSettings appSettings in
  colorTable_sized default_initialized ->
  schemes_sized (GlobalAppSettings.GetColorSchemes globals) ->
  CascadiaSettings.FindProfile appSettings profileGuid = Some profile ->
  new_TerminalSettings appSettings profileGuid
  = Returns (snd (_ApplyGlobalSettings globals
      (snd (_ApplyProfileSettings profile (GlobalAppSettings.GetColorSchemes globals)
              default_initialized)))).
Proof.
  intros globals Hs Hschemes Hfind.
  unfold new_TerminalSettings, construct, TerminalSettings_ctor.
  rewrite Hfind. fold globals.
  cbv [THROW_HR_IF_NULL mbind method_bind mret method_ret].
  rewrite _ApplyProfileSettings_resolved by assumption.
  reflexivity.
Qed.

(** [BuildSettings] once the object is constructed: each of the three
    members takes the launch argument when that is not empty. *)
Lemma BuildSettings_constructed (appSettings : CascadiaSettings.t Color)
    (newTerminalArgs : option NewTerminalArgs.t) (s : TerminalSettings) :
  new_TerminalSettings appSettings (GetProfileForArgs appSettings newTerminalArgs) = Returns s ->
  BuildSettings appSettings newTerminalArgs
  = Returns (GetProfileForArgs appSettings newTerminalArgs,
      match newTerminalArgs with
      | Some args =>
          s <| _Commandline :=
                 if hstring_empty (NewTerminalArgs.Commandline args) then _Commandline s
                 else NewTerminalArgs.Commandline args |>
            <| _StartingDirectory :=
                 if hstring_empty (NewTerminalArgs.StartingDirectory args) then _StartingDirectory s
                 else NewTerminalArgs.StartingDirectory args |>
            <| _StartingTitle :=
                 if hstring_empty (NewTerminalArgs.TabTitle args) then _StartingTitle s
                 else NewTerminalArgs.TabTitle args |>
      | None => s
      end).
Proof.
  intros Hctor. unfold BuildSettings. rewrite Hctor.
  destruct newTerminalArgs as [args|]; [|reflexivity].
  destruct s.
  destruct (hstring_empty (NewTerminalArgs.Commandline args)),
    (hstring_empty (NewTerminalArgs.StartingDirectory args)),
    (hstring_empty (NewTerminalArgs.TabTitle args)); reflexivity.
Qed.

Lemma BuildSettings_not_constructed (appSettings : CascadiaSettings.t Color)
    (newTerminalArgs : option NewTerminalArgs.t) (e : exception) :
  new_TerminalSettings appSettings (GetProfileForArgs appSettings newTerminalArgs) = Throws e ->
  BuildSettings appSettings newTerminalArgs = Throws e.
Proof. intros Hctor. unfold BuildSettings. rewrite Hctor. reflexivity. Qed.

(** C2: with a profile identity the registry does not have, construction
    throws [E_INVALIDARG] and no object results, from the constructor and
    from [BuildSettings] alike; with an identity the registry has, both
    return an object, so that this is the one way composition fails. *)
Theorem construction_fails_only_without_profile
    (appSettings : CascadiaSettings.t Color) (profileGuid : guid) :
  colorTable_sized default_initialized ->
  schemes_sized (GlobalAppSettings.GetColorSchemes (CascadiaSettings.GlobalSettings appSettings)) ->
  (CascadiaSettings.FindProfile appSettings profileGuid = None ->
     new_TerminalSettings appSettings profileGuid = Throws (ResultException E_INVALIDARG) /\
     forall newTerminalArgs,
       GetProfileForArgs appSettings newTerminalArgs = profileGuid ->
       BuildSettings appSettings newTerminalArgs = Throws (ResultException E_INVALIDARG)) /\
  (forall profile,
     CascadiaSettings.FindProfile appSettings profileGuid = Some profile ->
     (exists s, new_TerminalSettings appSettings profileGuid = Returns s) /\
     forall newTerminalArgs,
       GetProfileForArgs appSettings newTerminalArgs = profileGuid ->
       exists s', BuildSettings appSettings newTerminalArgs = Returns (profileGuid, s')).
Proof.
  intros Hs Hschemes. split.
  - intros Hfind. pose proof (new_TerminalSettings_missing _ _ Hfind) as Hctor.
    split; [exact Hctor|].
    intros newTerminalArgs <-. apply BuildSettings_not_constructed. exact Hctor.
  - intros profile Hfind.
    pose proof (new_TerminalSettings_found _ _ _ Hs Hschemes Hfind) as Hctor.
    split; [eexists; exact Hctor|].
    intros newTerminalArgs <-. eexists.
    apply BuildSettings_constructed. exact Hctor.
Qed.

(** C5: a colour the profile itself supplies (foreground, background,
    selection background, cursor, tab) is the one the constructed object
    holds, whatever scheme the profile names, and [BuildSettings] hands
    it on unchanged. *)
Theorem profile_colors_override_scheme
    (appSettings : CascadiaSettings.t Color) (profileGuid : guid) (profile : Profile.t Color) :
  colorTable_sized default_initialized ->
  schemes_sized (GlobalAppSettings.GetColorSchemes (CascadiaSettings.GlobalSettings appSettings)) ->
  CascadiaSettings.FindProfile appSettings profileGuid = Some profile ->
  exists s,
    new_TerminalSettings appSettings profileGuid = Returns s /\
    (forall Value, Profile.Foreground profile = Some Value ->
       _DefaultForeground s = til_color Value) /\
    (forall Value, Profile.Background profile = Some Value ->
       _DefaultBackground s = til_color Value) /\
    (forall Value, Profile.SelectionBackground profile = Some Value ->
       _SelectionBackground s = til_color Value) /\
    (forall Value, Profile.CursorColor profile = Some Value ->
       _CursorColor s = til_color Value) /\
    (forall Value, Profile.TabColor profile = Some Value ->
       _TabColor s = Some (til_color Value)) /\
    forall newTerminalArgs,
      GetProfileForArgs appSettings newTerminalArgs = profileGuid ->
      exists s',
        BuildSettings appSettings newTerminalArgs = Returns (profileGuid, s') /\
        _DefaultForeground s' = _DefaultForeground s /\
        _DefaultBackground s' = _DefaultBackground s /\
        _SelectionBackground s' = _SelectionBackground s /\
        _CursorColor s' = _CursorColor s /\
        _TabColor s' = _TabColor s.
Proof.
  intros Hs Hschemes Hfind.
  pose proof (new_TerminalSettings_found _ _ _ Hs Hschemes Hfind) as Hctor.
  rewrite _ApplyProfileSettings_resolved in Hctor by assumption.
  eexists. split; [exact Hctor|].
  repeat split.
  1-5: intros Value HValue; cbn; rewrite HValue; reflexivity.
  intros newTerminalArgs <-.
  eexists. split; [apply BuildSettings_constructed; exact Hctor|].
  destruct newTerminalArgs; repeat split; reflexivity.
Qed.

(** C6: the constructed object's starting title is the profile's tab
    title when that is not empty and the profile's name otherwise; a
    launch-time tab title is applied on top of it afterwards. *)
Theorem starting_title_fallback
    (appSettings : CascadiaSettings.t Color) (profileGuid : guid) (profile : Profile.t Color) :
  colorTable_sized default_initialized ->
  schemes_sized (GlobalAppSettings.GetColorSchemes (CascadiaSettings.GlobalSettings appSettings)) ->
  CascadiaSettings.FindProfile appSettings profileGuid = Some profile ->
  exists s,
    new_TerminalSettings appSettings profileGuid = Returns s /\
    _StartingTitle s
    = (if hstring_empty (Profile.TabTitle profile) then Profile.Name profile
       else Profile.TabTitle profile) /\
    forall newTerminalArgs,
      GetProfileForArgs appSettings newTerminalArgs = profileGuid ->
      exists s',
        BuildSettings appSettings newTerminalArgs = Returns (profileGuid, s') /\
        _StartingTitle s'
        = match newTerminalArgs with
          | Some args =>
              if hstring_empty (NewTerminalArgs.TabTitle args) then _StartingTitle s
              else NewTerminalArgs.TabTitle args
          | None => _StartingTitle s
          end.
Proof.
  intros Hs Hschemes Hfind.
  pose proof (new_TerminalSettings_found _ _ _ Hs Hschemes Hfind) as Hctor.
  rewrite _ApplyProfileSettings_resolved in Hctor by assumption.
  eexists. split; [exact Hctor|].
  split; [reflexivity|].
  intros newTerminalArgs <-.
  eexists. split; [apply BuildSettings_constructed; exact Hctor|].
  destruct newTerminalArgs; reflexivity.
Qed.


(** The invariant of the colour table holds of every constructed object. *)
Lemma new_TerminalSettings_sized (appSettings : CascadiaSettings.t Color) (profileGuid : guid)
    (s : TerminalSettings) :
  colorTable_sized default_initialized ->
  schemes_sized (GlobalAppSettings.GetColorSchemes (CascadiaSettings.GlobalSettings appSettings)) ->
  new_TerminalSettings appSettings profileGuid = Returns s ->
  colorTable_sized s.
Proof.
  intros Hs Hschemes Hctor.
  destruct (CascadiaSettings.FindProfile appSettings profileGuid) as [profile|] eqn:Hfind.
  - rewrite (new_TerminalSettings_found _ _ _ Hs Hschemes Hfind) in Hctor.
    rewrite _ApplyProfileSettings_resolved in Hctor by assumption.
    injection Hctor as <-. unfold colorTable_sized. cbn.
    unfold referenced_scheme.
    destruct (hstring_empty (Profile.ColorSchemeName profile)); [exact Hs|].
    destruct (_ !! _) as [found|] eqn:Hfound; [|exact Hs].
    rewrite length_fmap. exact (Hschemes _ _ Hfound).
  - rewrite (new_TerminalSettings_missing _ _ Hfind) in Hctor. discriminate.
Qed.

(** ** Launch-time overrides *)

(** C7: given a launch-argument object, what [BuildSettings] returns
    differs from the constructed object in the command line, the starting
    directory and the starting title at most; each of the three holds the
    argument when the argument is not empty and the constructed value when
    it is, independently of the other two. *)
Theorem launch_arguments_override
    (appSettings : CascadiaSettings.t Color) (args : NewTerminalArgs.t) (s : TerminalSettings) :
  new_TerminalSettings appSettings (GetProfileForArgs appSettings (Some args)) = Returns s ->
  exists s',
    BuildSettings appSettings (Some args)
    = Returns (GetProfileForArgs appSettings (Some args), s') /\
    (_Commandline s'
     = if hstring_empty (NewTerminalArgs.Commandline args) then _Commandline s
       else NewTerminalArgs.Commandline args) /\
    (_StartingDirectory s'
     = if hstring_empty (NewTerminalArgs.StartingDirectory args) then _StartingDirectory s
       else NewTerminalArgs.StartingDirectory args) /\
    (_StartingTitle s'
     = if hstring_empty (NewTerminalArgs.TabTitle args) then _StartingTitle s
       else NewTerminalArgs.TabTitle args) /\
    (_HistorySize s' = _HistorySize s /\
     _SnapOnInput s' = _SnapOnInput s /\
     _AltGrAliasing s' = _AltGrAliasing s /\
     _CursorHeight s' = _CursorHeight s /\
     _CursorShape s' = _CursorShape s /\
     _ProfileName s' = _ProfileName s /\
     _UseAcrylic s' = _UseAcrylic s /\
     _TintOpacity s' = _TintOpacity s /\
     _FontFace s' = _FontFace s /\
     _FontSize s' = _FontSize s /\
     _FontWeight s' = _FontWeight s /\
     _Padding s' = _Padding s /\
     _SuppressApplicationTitle s' = _SuppressApplicationTitle s /\
     _DefaultForeground s' = _DefaultForeground s /\
     _DefaultBackground s' = _DefaultBackground s /\
     _SelectionBackground s' = _SelectionBackground s /\
     _CursorColor s' = _CursorColor s /\
     _ScrollState s' = _ScrollState s /\
     _BackgroundImage s' = _BackgroundImage s /\
     _BackgroundImageOpacity s' = _BackgroundImageOpacity s /\
     _BackgroundImageStretchMode s' = _BackgroundImageStretchMode s /\
     _BackgroundImageHorizontalAlignment s' = _BackgroundImageHorizontalAlignment s /\
     _BackgroundImageVerticalAlignment s' = _BackgroundImageVerticalAlignment s /\
     _RetroTerminalEffect s' = _RetroTerminalEffect s /\
     _AntialiasingMode s' = _AntialiasingMode s /\
     _TabColor s' = _TabColor s /\
     _InitialRows s' = _InitialRows s /\
     _InitialCols s' = _InitialCols s /\
     _WordDelimiters s' = _WordDelimiters s /\
     _CopyOnSelect s' = _CopyOnSelect s /\
     _ForceFullRepaintRendering s' = _ForceFullRepaintRendering s /\
     _SoftwareRendering s' = _SoftwareRendering s /\
     _ForceVTInput s' = _ForceVTInput s /\
     _colorTable s' = _colorTable s) /\
    (hstring_empty (NewTerminalArgs.Commandline args) = true ->
     hstring_empty (NewTerminalArgs.StartingDirectory args) = true ->
     s' = s <| _StartingTitle :=
                 if hstring_empty (NewTerminalArgs.TabTitle args) then _StartingTitle s
                 else NewTerminalArgs.TabTitle args |>).
Proof.
  intros Hctor. eexists.
  split; [apply (BuildSettings_constructed _ (Some args)); exact Hctor|].
  do 3 (split; [reflexivity|]).
  split; [repeat split; reflexivity|].
  intros -> ->. destruct s. reflexivity.
Qed.

(** C9: the constructed object's starting directory is the profile's
    evaluated one when the profile's raw directory is not empty, and is
    not written otherwise; a launch-time directory that is not empty is
    stored as it was passed. *)
Theorem starting_directory_sources
    (appSettings : CascadiaSettings.t Color) (profileGuid : guid) (profile : Profile.t Color) :
  colorTable_sized default_initialized ->
  schemes_sized (GlobalAppSettings.GetColorSchemes (CascadiaSettings.GlobalSettings appSettings)) ->
  CascadiaSettings.FindProfile appSettings profileGuid = Some profile ->
  exists s,
    new_TerminalSettings appSettings profileGuid = Returns s /\
    _StartingDirectory s
    = (if hstring_empty (Profile.StartingDirectory profile)
       then _StartingDirectory default_initialized
       else GetEvaluatedStartingDirectory profile) /\
    forall args,
      GetProfileForArgs appSettings (Some args) = profileGuid ->
      hstring_empty (NewTerminalArgs.StartingDirectory args) = false ->
      exists s',
        BuildSettings appSettings (Some args) = Returns (profileGuid, s') /\
        _StartingDirectory s' = NewTerminalArgs.StartingDirectory args.
Proof.
  intros Hs Hschemes Hfind.
  pose proof (new_TerminalSettings_found _ _ _ Hs Hschemes Hfind) as Hctor.
  rewrite _ApplyProfileSettings_resolved in Hctor by assumption.
  eexists. split; [exact Hctor|].
  split; [reflexivity|].
  intros args <- Hdir.
  eexists. split; [apply (BuildSettings_constructed _ (Some args)); exact Hctor|].
  cbn. rewrite Hdir. reflexivity.
Qed.

(** C10: with a null launch-argument object, [BuildSettings] is the
    constructor at the identity the registry resolves for null arguments,
    paired with that identity: the same object when one is constructed,
    the same failure otherwise. *)
Theorem BuildSettings_null_args (appSettings : CascadiaSettings.t Color) :
  BuildSettings appSettings None
  = (fun settings => (GetProfileForArgs appSettings None, settings))
      <$> new_TerminalSettings appSettings (GetProfileForArgs appSettings None).
Proof.
  unfold BuildSettings.
  destruct (new_TerminalSettings appSettings (GetProfileForArgs appSettings None));
    reflexivity.
Qed.

(** ** The colour table in general *)

(** The loop of [_ApplyColorScheme] followed by more statements: while
    the slots last, each iteration writes its slot and goes on. *)
Lemma SetColorTableEntry_loop_then (f : Z -> uint32_t) (rest : method unit) (n k : nat)
    (s : TerminalSettings) :
  colorTable_sized s -> (k + n <= COLOR_TABLE_SIZE)%nat ->
  foldr (fun i rest => SetColorTableEntry i (f i) ;; rest) rest
        (seqZ (Z.of_nat k) (Z.of_nat n)) s
  = rest (s <| _colorTable :=
                 take k (_colorTable s) ++ (f <$> seqZ (Z.of_nat k) (Z.of_nat n))
                 ++ drop (k + n) (_colorTable s) |>).
Proof.
  revert k s. induction n as [|n IH]; intros k s Hs Hk.
  - rewrite seqZ_nil by lia. cbn [foldr fmap list_fmap app].
    rewrite Nat.add_0_r, take_drop, colorTable_put_same. reflexivity.
  - rewrite seqZ_cons by lia.
    replace (Z.succ (Z.of_nat k)) with (Z.of_nat (S k)) by lia.
    replace (Z.pred (Z.of_nat (S n))) with (Z.of_nat n) by lia.
    cbn [foldr]. unfold mbind at 1, method_bind at 1.
    unfold COLOR_TABLE_SIZE in Hk.
    rewrite SetColorTableEntry_in_range by (assumption || lia).
    rewrite Nat2Z.id.
    assert (Hlen : (k < length (_colorTable s))%nat).
    { unfold colorTable_sized, COLOR_TABLE_SIZE in Hs. lia. }
    rewrite IH.
    + rewrite colorTable_put_put. f_equal. f_equal. f_equal.
      change (_colorTable (s <| _colorTable := ?t |>)) with t.
      rewrite (take_S_r _ _ (f (Z.of_nat k))) by (apply list_lookup_insert_eq; exact Hlen).
      rewrite take_insert_ge by lia.
      rewrite drop_insert_lt by lia.
      rewrite fmap_cons, <- app_assoc. cbn [app].
      replace (k + S n)%nat with (S k + n)%nat by lia. reflexivity.
    + unfold colorTable_sized in *.
      change (_colorTable (s <| _colorTable := ?t |>)) with t.
      rewrite length_insert. exact Hs.
    + unfold COLOR_TABLE_SIZE. lia.
Qed.

(** The whole loop for any bound [count]: at most sixteen slots are
    written, and a seventeenth iteration is refused by
    [SetColorTableEntry]. *)
Lemma for_range_SetColorTableEntry (f : Z -> uint32_t) (count : Z) (s : TerminalSettings) :
  colorTable_sized s ->
  for_range 0 count (fun i => SetColorTableEntry i (f i)) s
  = if bool_decide (16 < count)
    then (Throws (ResultException E_INVALIDARG),
          s <| _colorTable := f <$> seqZ 0 16 |>)
    else (Returns tt,
          s <| _colorTable :=
                 (f <$> seqZ 0 count) ++ drop (Z.to_nat count) (_colorTable s) |>).
Proof.
  intros Hs. unfold for_range. rewrite Z.sub_0_r.
  pose proof Hs as Hlen. unfold colorTable_sized, COLOR_TABLE_SIZE in Hlen.
  case_bool_decide as Hcount.
  - replace count with (16 + (count - 16)) at 1 by lia.
    rewrite seqZ_app by lia. rewrite fold_right_app.
    rewrite (seqZ_cons (0 + 16)) by lia. cbn [foldr].
    rewrite (SetColorTableEntry_loop_then f _ 16 0 s Hs) by (unfold COLOR_TABLE_SIZE; lia).
    rewrite take_0, drop_ge by lia. rewrite app_nil_r. cbn [app].
    unfold mbind, method_bind.
    rewrite SetColorTableEntry_above; [reflexivity| |lia].
    unfold colorTable_sized.
    change (_colorTable (s <| _colorTable := ?t |>)) with t.
    rewrite length_fmap, length_seqZ. reflexivity.
  - destruct (Z.le_gt_cases count 0) as [Hle|Hgt].
    + rewrite seqZ_nil by lia. cbn [foldr fmap list_fmap app].
      replace (Z.to_nat count) with 0%nat by lia.
      rewrite drop_0, colorTable_put_same. reflexivity.
    + pose proof (SetColorTableEntry_loop f (Z.to_nat count) 0 s Hs
                    ltac:(unfold COLOR_TABLE_SIZE; lia)) as Hloop.
      change (Z.of_nat 0) with 0 in Hloop. rewrite Z2Nat.id in Hloop by lia.
      rewrite Hloop. reflexivity.
Qed.


(** Reading the first [n] colours of a table by index. *)
Lemma fmap_index_seqZ_take {A B : Type} `{!Inhabited A} (g : A -> B) (l : list A) (n : nat) :
  (n <= length l)%nat ->
  (fun i : Z => g (l !!! Z.to_nat i)) <$> seqZ 0 (Z.of_nat n) = g <$> take n l.
Proof.
  intros Hn. apply list_eq. intros i. rewrite !list_lookup_fmap.
  destruct (decide (i < n)%nat) as [Hi|Hi].
  - rewrite lookup_seqZ_lt by lia. rewrite lookup_take_lt by lia. cbn.
    replace (Z.to_nat (0 + Z.of_nat i)) with i by lia.
    destruct (lookup_lt_is_Some_2 l i) as [x Hx]; [lia|].
    rewrite (list_lookup_total_correct _ _ _ Hx), Hx. reflexivity.
  - rewrite lookup_seqZ_ge by lia. rewrite lookup_take_ge by lia. reflexivity.
Qed.

(** [_ApplyColorScheme] for a table of any length: the four colours are
    written first, then the loop runs as far as the table of the object
    goes. *)
Lemma _ApplyColorScheme_any (scheme : ColorScheme.t Color) (s : TerminalSettings) :
  colorTable_sized s ->
  _ApplyColorScheme scheme s
  = if bool_decide (16 < narrow_cast_int (Z.of_nat (length (ColorScheme.Table scheme))))
    then (Throws (ResultException E_INVALIDARG),
          s <| _DefaultForeground := til_color (ColorScheme.Foreground scheme) |>
            <| _DefaultBackground := til_color (ColorScheme.Background scheme) |>
            <| _SelectionBackground := til_color (ColorScheme.SelectionBackground scheme) |>
            <| _CursorColor := til_color (ColorScheme.CursorColor scheme) |>
            <| _colorTable :=
                 (fun i => til_color (ColorScheme.Table scheme !!! Z.to_nat i))
                 <$> seqZ 0 16 |>)
    else (Returns tt,
          s <| _DefaultForeground := til_color (ColorScheme.Foreground scheme) |>
            <| _DefaultBackground := til_color (ColorScheme.Background scheme) |>
            <| _SelectionBackground := til_color (ColorScheme.SelectionBackground scheme) |>
            <| _CursorColor := til_color (ColorScheme.CursorColor scheme) |>
            <| _colorTable :=
                 ((fun i => til_color (ColorScheme.Table scheme !!! Z.to_nat i))
                  <$> seqZ 0 (narrow_cast_int (Z.of_nat (length (ColorScheme.Table scheme)))))
                 ++ drop (Z.to_nat (narrow_cast_int
                                      (Z.of_nat (length (ColorScheme.Table scheme)))))
                      (_colorTable s) |>).
Proof.
  intros Hs. unfold _ApplyColorScheme.
  unfold mbind at 1 2 3 4, method_bind at 1 2 3 4, assign. cbv iota beta.
  rewrite for_range_SetColorTableEntry by exact Hs.
  case_bool_decide; reflexivity.
Qed.

(** X3: whatever the index and the value, [SetColorTableEntry] changes no
    member but the colour table, keeps the number of its slots, and
    leaves the object as it was whenever it does not return. *)
Theorem SetColorTableEntry_frame (s : TerminalSettings) (index : int32_t) (value : uint32_t) :
  snd (SetColorTableEntry index value s)
  = s <| _colorTable := _colorTable (snd (SetColorTableEntry index value s)) |> /\
  length (_colorTable (snd (SetColorTableEntry index value s))) = length (_colorTable s) /\
  (fst (SetColorTableEntry index value s) <> Returns tt ->
   snd (SetColorTableEntry index value s) = s).
Proof.
  unfold SetColorTableEntry, array_at_assign. run.
  case_bool_decide; cbn.
  - split; [destruct s; reflexivity|]. split; reflexivity.
  - case_bool_decide; cbn.
    + split; [reflexivity|]. split; [apply length_insert|].
      intros Hne. exfalso. apply Hne. reflexivity.
    + split; [destruct s; reflexivity|]. split; reflexivity.
Qed.

(** X1: a slot that was written reads back the value written, and every
    other slot reads as before. *)
Theorem SetColorTableEntry_GetColorTableEntry (s : TerminalSettings)
    (index other : int32_t) (value : uint32_t) :
  colorTable_sized s -> 0 <= index < 16 -> 0 <= other < 16 ->
  exists s',
    SetColorTableEntry index value s = (Returns tt, s') /\
    GetColorTableEntry index s' = (Returns value, s') /\
    (other <> index ->
     fst (GetColorTableEntry other s') = fst (GetColorTableEntry other s)).
Proof.
  intros Hs Hindex Hother.
  eexists. split; [apply SetColorTableEntry_in_range; assumption|].
  match goal with |- GetColorTableEntry _ ?s' = _ /\ _ =>
    assert (Hs' : colorTable_sized s')
      by (unfold colorTable_sized in *; rewrite <- Hs; apply length_insert)
  end.
  unfold colorTable_sized, COLOR_TABLE_SIZE in Hs.
  split.
  - destruct (GetColorTableEntry_in_range _ index Hs' Hindex) as (v & Hv & Hget).
    rewrite Hget. do 2 f_equal.
    change (<[Z.to_nat index := value]> (_colorTable s) !! Z.to_nat index = Some v) in Hv.
    rewrite list_lookup_insert_eq in Hv by lia. congruence.
  - intros Hne.
    destruct (GetColorTableEntry_in_range _ other Hs' Hother) as (v & Hv & Hget).
    destruct (GetColorTableEntry_in_range s other) as (w & Hw & Hget');
      [exact Hs|exact Hother|].
    rewrite Hget, Hget'. cbn [fst]. f_equal.
    change (<[Z.to_nat index := value]> (_colorTable s) !! Z.to_nat other = Some v) in Hv.
    rewrite list_lookup_insert_ne in Hv by lia. congruence.
Qed.

(** X2: outside the table the two accessors end differently.  A negative
    index leaves [SetColorTableEntry] with the [std::out_of_range] of
    [at]; any index that is not a slot makes the [noexcept]
    [GetColorTableEntry] end the program.  Neither touches the object. *)
Theorem color_table_outside_outcomes (s : TerminalSettings) (index : int32_t)
    (value : uint32_t) :
  colorTable_sized s -> is_int32 index -> ~ (0 <= index < 16) ->
  GetColorTableEntry index s = (Terminates, s) /\
  (index < 0 -> SetColorTableEntry index value s = (Throws out_of_range, s)).
Proof.
  intros Hs Hi Hout. split.
  - apply GetColorTableEntry_out_of_range; assumption.
  - intros Hneg. apply SetColorTableEntry_negative; assumption.
Qed.


(** ** Colour schemes of any size *)

(** X4: a scheme found under its name whose table has at most sixteen
    colours is applied with success: the four colours are set, the first
    slots of the colour table take the scheme's colours in order and the
    slots beyond the scheme's table keep what they held. *)
Theorem ApplyColorScheme_short_table (name : hstring)
    (schemes : gmap string (ColorScheme.t Color)) (found : ColorScheme.t Color)
    (s : TerminalSettings) :
  colorTable_sized s ->
  schemes !! name = Some found ->
  (length (ColorScheme.Table found) <= COLOR_TABLE_SIZE)%nat ->
  ApplyColorScheme name schemes s
  = (Returns true,
     s <| _DefaultForeground := til_color (ColorScheme.Foreground found) |>
       <| _DefaultBackground := til_color (ColorScheme.Background found) |>
       <| _SelectionBackground := til_color (ColorScheme.SelectionBackground found) |>
       <| _CursorColor := til_color (ColorScheme.CursorColor found) |>
       <| _colorTable :=
            (til_color <$> ColorScheme.Table found)
            ++ drop (length (ColorScheme.Table found)) (_colorTable s) |>).
Proof.
  intros Hs Hfound Hlen. unfold COLOR_TABLE_SIZE in Hlen.
  unfold ApplyColorScheme. rewrite Hfound. unfold mbind, method_bind.
  rewrite _ApplyColorScheme_any by exact Hs.
  rewrite narrow_cast_int_id by (unfold is_int32, INT_MIN, INT_MAX; lia).
  rewrite bool_decide_eq_false_2 by lia.
  rewrite fmap_index_seqZ, Nat2Z.id. reflexivity.
Qed.

(** X5: a scheme whose table has more than sixteen colours is refused
    with [E_INVALIDARG] at the seventeenth, and the object is left with
    what was written until then: the scheme's four colours and its first
    sixteen table colours. *)
Theorem ApplyColorScheme_long_table (name : hstring)
    (schemes : gmap string (ColorScheme.t Color)) (found : ColorScheme.t Color)
    (s : TerminalSettings) :
  colorTable_sized s ->
  schemes !! name = Some found ->
  (COLOR_TABLE_SIZE < length (ColorScheme.Table found))%nat ->
  Z.of_nat (length (ColorScheme.Table found)) <= INT_MAX ->
  ApplyColorScheme name schemes s
  = (Throws (ResultException E_INVALIDARG),
     s <| _DefaultForeground := til_color (ColorScheme.Foreground found) |>
       <| _DefaultBackground := til_color (ColorScheme.Background found) |>
       <| _SelectionBackground := til_color (ColorScheme.SelectionBackground found) |>
       <| _CursorColor := til_color (ColorScheme.CursorColor found) |>
       <| _colorTable := til_color <$> take COLOR_TABLE_SIZE (ColorScheme.Table found) |>).
Proof.
  intros Hs Hfound Hlen Hmax. unfold COLOR_TABLE_SIZE in Hlen.
  unfold ApplyColorScheme. rewrite Hfound. unfold mbind, method_bind.
  rewrite _ApplyColorScheme_any by exact Hs.
  rewrite narrow_cast_int_id by (unfold is_int32, INT_MIN, INT_MAX in *; lia).
  rewrite bool_decide_eq_true_2 by lia.
  rewrite <- (fmap_index_seqZ_take til_color (ColorScheme.Table found) COLOR_TABLE_SIZE)
    by (unfold COLOR_TABLE_SIZE; lia).
  reflexivity.
Qed.

(** The colour table keeps its sixteen slots through [ApplyColorScheme],
    also when the call throws. *)
Lemma ApplyColorScheme_keeps_size (name : hstring)
    (schemes : gmap string (ColorScheme.t Color)) (s : TerminalSettings) :
  colorTable_sized s ->
  colorTable_sized (snd (ApplyColorScheme name schemes s)).
Proof.
  intros Hs. unfold ApplyColorScheme.
  destruct (schemes !! name) as [found|]; [|exact Hs].
  unfold mbind, method_bind. rewrite _ApplyColorScheme_any by exact Hs.
  unfold colorTable_sized, COLOR_TABLE_SIZE in *.
  case_bool_decide as Hcount; unfold mret, method_ret; cbn [fst snd].
  - change (length ((fun i => til_color (ColorScheme.Table found !!! Z.to_nat i))
                    <$> seqZ 0 16) = 16%nat).
    rewrite length_fmap, length_seqZ. reflexivity.
  - match goal with |- length (_colorTable (_ <| _colorTable := ?t |>)) = _ =>
      change (length t = 16%nat)
    end.
    rewrite length_app, length_fmap, length_seqZ, length_drop. lia.
Qed.

(** X6: whatever the registry holds under the name, [ApplyColorScheme]
    changes no member but the four colours and the colour table, and the
    colour table keeps its sixteen slots, also when the call throws. *)
Theorem ApplyColorScheme_frame (name : hstring)
    (schemes : gmap string (ColorScheme.t Color)) (s : TerminalSettings) :
  colorTable_sized s ->
  colorTable_sized (snd (ApplyColorScheme name schemes s)) /\
  snd (ApplyColorScheme name schemes s)
  = s <| _DefaultForeground := _DefaultForeground (snd (ApplyColorScheme name schemes s)) |>
      <| _DefaultBackground := _DefaultBackground (snd (ApplyColorScheme name schemes s)) |>
      <| _SelectionBackground := _SelectionBackground (snd (ApplyColorScheme name schemes s)) |>
      <| _CursorColor := _CursorColor (snd (ApplyColorScheme name schemes s)) |>
      <| _colorTable := _colorTable (snd (ApplyColorScheme name schemes s)) |>.
Proof.
  intros Hs. split; [apply ApplyColorScheme_keeps_size; exact Hs|].
  unfold ApplyColorScheme.
  destruct (schemes !! name) as [found|].
  - unfold mbind, method_bind. rewrite _ApplyColorScheme_any by exact Hs.
    case_bool_decide; reflexivity.
  - cbn [snd mret method_ret]. destruct s. reflexivity.
Qed.

(** X7: of two sixteen-colour schemes applied one after the other only
    the second shows: the object is the one the second scheme alone
    gives.  With the same name twice, applying a scheme again changes
    nothing. *)
Theorem ApplyColorScheme_last_wins (first second : hstring)
    (schemes : gmap string (ColorScheme.t Color)) (s : TerminalSettings) :
  colorTable_sized s -> schemes_sized schemes ->
  is_Some (schemes !! first) -> is_Some (schemes !! second) ->
  (ApplyColorScheme first schemes ;; ApplyColorScheme second schemes) s
  = ApplyColorScheme second schemes s.
Proof.
  intros Hs Hschemes [a Ha] [b Hb].
  unfold mbind, method_bind.
  rewrite (ApplyColorScheme_sized first) by assumption. rewrite Ha.
  rewrite !ApplyColorScheme_sized; try assumption.
  - rewrite Hb. reflexivity.
  - unfold colorTable_sized. 
    change (length (til_color <$> ColorScheme.Table a) = COLOR_TABLE_SIZE).
    rewrite length_fmap. exact (Hschemes _ _ Ha).
Qed.


(** ** Construction without assumptions on the registry *)

(** [_ApplyProfileSettings] consults the registry under the profile's
    scheme name only, and not at all when that name is empty. *)
Lemma _ApplyProfileSettings_lookup_only (profile : Profile.t Color)
    (schemes schemes' : gmap string (ColorScheme.t Color)) :
  (hstring_empty (Profile.ColorSchemeName profile) = false ->
   schemes !! Profile.ColorSchemeName profile = schemes' !! Profile.ColorSchemeName profile) ->
  _ApplyProfileSettings profile schemes = _ApplyProfileSettings profile schemes'.
Proof.
  intros Hlookup. unfold _ApplyProfileSettings, ApplyColorScheme.
  destruct (hstring_empty (Profile.ColorSchemeName profile)).
  - reflexivity.
  - rewrite Hlookup by reflexivity. reflexivity.
Qed.

(** The constructor once the profile is found, whatever the layers do. *)
Lemma new_TerminalSettings_found_run (appSettings : CascadiaSettings.t Color)
    (profileGuid : guid) (profile : Profile.t Color) :
  CascadiaSettings.FindProfile appSettings profileGuid = Some profile ->
  new_TerminalSettings appSettings profileGuid
  = match _ApplyProfileSettings profile
            (GlobalAppSettings.GetColorSchemes (CascadiaSettings.GlobalSettings appSettings))
            default_initialized with
    | (Returns _, s) =>
        Returns (snd (_ApplyGlobalSettings (CascadiaSettings.GlobalSettings appSettings) s))
    | (Throws e, _) => Throws e
    | (Terminates, _) => Terminates
    end.
Proof.
  intros Hfind. unfold new_TerminalSettings, construct, TerminalSettings_ctor.
  rewrite Hfind. cbv [THROW_HR_IF_NULL mbind method_bind mret method_ret].
  destruct (_ApplyProfileSettings _ _ _) as [[[]| |] s]; reflexivity.
Qed.

(** How [_ApplyProfileSettings] ends: it throws when, and only when, the
    scheme the profile refers to has more colours than the table has
    slots; the table of the object keeps its size either way. *)
Lemma _ApplyProfileSettings_outcome (profile : Profile.t Color)
    (schemes : gmap string (ColorScheme.t Color)) (s : TerminalSettings) :
  colorTable_sized s ->
  fst (_ApplyProfileSettings profile schemes s)
  = match referenced_scheme profile schemes with
    | Some found =>
        if bool_decide (16 < narrow_cast_int (Z.of_nat (length (ColorScheme.Table found))))
        then Throws (ResultException E_INVALIDARG)
        else Returns tt
    | None => Returns tt
    end /\
  colorTable_sized (snd (_ApplyProfileSettings profile schemes s)).
Proof.
  intros Hs. unfold referenced_scheme.
  destruct (hstring_empty (Profile.ColorSchemeName profile)) eqn:Hname.
  - rewrite (_ApplyProfileSettings_lookup_only profile schemes ∅)
      by (rewrite Hname; discriminate).
    rewrite _ApplyProfileSettings_resolved by (exact Hs || intros ? ? [=]).
    unfold referenced_scheme. rewrite Hname. split; [reflexivity|exact Hs].
  - pose proof (ApplyColorScheme_keeps_size (Profile.ColorSchemeName profile) schemes)
      as Hframe.
    unfold _ApplyProfileSettings. rewrite Hname.
    destruct (hstring_empty (Profile.StartingDirectory profile));
    destruct (Profile.SuppressApplicationTitle profile);
    cbv [mbind method_bind assign when negb mret method_ret];
    (match goal with |- context [ApplyColorScheme ?n ?m ?x] =>
       pose proof (Hframe x Hs) as Hsized;
       unfold ApplyColorScheme in Hsized |- *;
       destruct (m !! n) as [found|];
       [ cbv [mbind method_bind mret method_ret] in Hsized |- *;
         rewrite _ApplyColorScheme_any in Hsized |- * by exact Hs;
         case_bool_decide; cbn [fst snd] in Hsized |- *;
         [ split; [reflexivity|exact Hsized] | ]
       | cbv [mbind method_bind mret method_ret] in Hsized |- * ]
     end);
    destruct (Profile.Foreground profile), (Profile.Background profile),
      (Profile.SelectionBackground profile), (Profile.CursorColor profile);
    destruct (hstring_empty (Profile.BackgroundImagePath profile));
    destruct (Profile.TabColor profile);
    (split; [reflexivity|exact Hsized]).
Qed.


(** X8: whatever the registries hold, construction either returns an
    object, whose colour table has its sixteen slots, or throws
    [E_INVALIDARG]; it never ends in [std::out_of_range] or in
    [std::terminate].  It throws exactly when the profile is missing or
    the scheme the profile refers to has more colours than the table has
    slots, and [BuildSettings] ends as the constructor does. *)
Theorem construction_outcomes (appSettings : CascadiaSettings.t Color) (profileGuid : guid) :
  colorTable_sized default_initialized ->
  let schemes :=
    GlobalAppSettings.GetColorSchemes (CascadiaSettings.GlobalSettings appSettings) in
  let oversized (found : ColorScheme.t Color) :=
    16 < narrow_cast_int (Z.of_nat (length (ColorScheme.Table found))) in
  match new_TerminalSettings appSettings profileGuid with
  | Returns s =>
      colorTable_sized s /\
      exists profile,
        CascadiaSettings.FindProfile appSettings profileGuid = Some profile /\
        forall found, referenced_scheme profile schemes = Some found -> ~ oversized found
  | Throws e =>
      e = ResultException E_INVALIDARG /\
      (CascadiaSettings.FindProfile appSettings profileGuid = None \/
       exists profile found,
         CascadiaSettings.FindProfile appSettings profileGuid = Some profile /\
         referenced_scheme profile schemes = Some found /\ oversized found)
  | Terminates => False
  end /\
  forall newTerminalArgs,
    GetProfileForArgs appSettings newTerminalArgs = profileGuid ->
    match new_TerminalSettings appSettings profileGuid with
    | Returns s =>
        exists s', BuildSettings appSettings newTerminalArgs = Returns (profileGuid, s') /\
                   colorTable_sized s'
    | Throws e => BuildSettings appSettings newTerminalArgs = Throws e
    | Terminates => BuildSettings appSettings newTerminalArgs = Terminates
    end.
Proof.
  intros Hs schemes oversized. split.
  - destruct (CascadiaSettings.FindProfile appSettings profileGuid) as [profile|] eqn:Hfind.
    + rewrite (new_TerminalSettings_found_run _ _ _ Hfind). fold schemes.
      destruct (_ApplyProfileSettings_outcome profile schemes default_initialized Hs)
        as [Hout Hsized].
      destruct (_ApplyProfileSettings profile schemes default_initialized) as [o s1].
      cbn [fst snd] in Hout, Hsized. subst o.
      destruct (referenced_scheme profile schemes) as [found|] eqn:Href.
      * case_bool_decide as Hcount.
        -- split; [reflexivity|]. right. exists profile, found. auto.
        -- split; [exact Hsized|]. exists profile. split; [reflexivity|].
           intros found' Heq. rewrite Href in Heq. injection Heq as <-. exact Hcount.
      * split; [exact Hsized|]. exists profile. split; [reflexivity|].
        intros found Heq. rewrite Href in Heq. discriminate Heq.
    + rewrite (new_TerminalSettings_missing _ _ Hfind). split; [reflexivity|]. left. reflexivity.
  - intros newTerminalArgs <-.
    destruct (new_TerminalSettings appSettings (GetProfileForArgs appSettings newTerminalArgs))
      as [s| |] eqn:Hctor.
    + eexists. split; [apply BuildSettings_constructed; exact Hctor|].
      assert (Hsized : colorTable_sized s).
      { destruct (CascadiaSettings.FindProfile appSettings
                    (GetProfileForArgs appSettings newTerminalArgs)) as [profile|] eqn:Hfind.
        - rewrite (new_TerminalSettings_found_run _ _ _ Hfind) in Hctor.
          destruct (_ApplyProfileSettings_outcome profile
                      (GlobalAppSettings.GetColorSchemes
                         (CascadiaSettings.GlobalSettings appSettings))
                      default_initialized Hs) as [_ Hsized].
          destruct (_ApplyProfileSettings _ _ _) as [[[]| |] s1]; try discriminate.
          injection Hctor as <-. exact Hsized.
        - rewrite (new_TerminalSettings_missing _ _ Hfind) in Hctor. discriminate. }
      destruct newTerminalArgs; exact Hsized.
    + apply BuildSettings_not_constructed. exact Hctor.
    + unfold BuildSettings. rewrite Hctor. reflexivity.
Qed.

(** X9: when the profile names a scheme the registry has, with its
    sixteen colours, the constructed object holds the scheme's table and,
    for each of the four colours the profile does not supply itself, the
    scheme's colour. *)
Theorem scheme_fills_unset_colors
    (appSettings : CascadiaSettings.t Color) (profileGuid : guid)
    (profile : Profile.t Color) (found : ColorScheme.t Color) :
  colorTable_sized default_initialized ->
  CascadiaSettings.FindProfile appSettings profileGuid = Some profile ->
  hstring_empty (Profile.ColorSchemeName profile) = false ->
  GlobalAppSettings.GetColorSchemes (CascadiaSettings.GlobalSettings appSettings)
    !! Profile.ColorSchemeName profile = Some found ->
  length (ColorScheme.Table found) = COLOR_TABLE_SIZE ->
  exists s,
    new_TerminalSettings appSettings profileGuid = Returns s /\
    _colorTable s = til_color <$> ColorScheme.Table found /\
    (Profile.Foreground profile = None ->
     _DefaultForeground s = til_color (ColorScheme.Foreground found)) /\
    (Profile.Background profile = None ->
     _DefaultBackground s = til_color (ColorScheme.Background found)) /\
    (Profile.SelectionBackground profile = None ->
     _SelectionBackground s = til_color (ColorScheme.SelectionBackground found)) /\
    (Profile.CursorColor profile = None ->
     _CursorColor s = til_color (ColorScheme.CursorColor found)).
Proof.
  intros Hs Hfind Hname Hfound Hlen.
  rewrite (new_TerminalSettings_found_run _ _ _ Hfind).
  rewrite (_ApplyProfileSettings_lookup_only profile _
             {[ Profile.ColorSchemeName profile := found ]})
    by (intros _; rewrite Hfound, lookup_singleton_eq; reflexivity).
  rewrite _ApplyProfileSettings_resolved; [|exact Hs|].
  - unfold referenced_scheme. rewrite Hname, lookup_singleton_eq.
    eexists. split; [reflexivity|]. split; [reflexivity|].
    repeat split; intros ->; reflexivity.
  - intros name scheme Hlookup.
    apply lookup_singleton_Some in Hlookup as [_ <-]. exact Hlen.
Qed.

(** X10: a profile that names no scheme, or one the registry does not
    have, is constructed all the same, whatever else the registry holds;
    the colour table and every colour the profile does not supply are
    then the default-initialised ones. *)
Theorem missing_scheme_keeps_defaults
    (appSettings : CascadiaSettings.t Color) (profileGuid : guid) (profile : Profile.t Color) :
  colorTable_sized default_initialized ->
  CascadiaSettings.FindProfile appSettings profileGuid = Some profile ->
  (hstring_empty (Profile.ColorSchemeName profile) = true \/
   GlobalAppSettings.GetColorSchemes (CascadiaSettings.GlobalSettings appSettings)
     !! Profile.ColorSchemeName profile = None) ->
  exists s,
    new_TerminalSettings appSettings profileGuid = Returns s /\
    _colorTable s = _colorTable default_initialized /\
    (Profile.Foreground profile = None ->
     _DefaultForeground s = _DefaultForeground default_initialized) /\
    (Profile.Background profile = None ->
     _DefaultBackground s = _DefaultBackground default_initialized) /\
    (Profile.SelectionBackground profile = None ->
     _SelectionBackground s = _SelectionBackground default_initialized) /\
    (Profile.CursorColor profile = None ->
     _CursorColor s = _CursorColor default_initialized) /\
    (Profile.TabColor profile = None ->
     _TabColor s = _TabColor default_initialized).
Proof.
  intros Hs Hfind Hnone.
  rewrite (new_TerminalSettings_found_run _ _ _ Hfind).
  rewrite (_ApplyProfileSettings_lookup_only profile _ ∅).
  - rewrite _ApplyProfileSettings_resolved by (exact Hs || intros ? ? [=]).
    assert (Href : referenced_scheme profile ∅ = None).
    { unfold referenced_scheme. destruct (hstring_empty _); reflexivity. }
    rewrite Href.
    eexists. split; [reflexivity|]. split; [reflexivity|].
    repeat split; intros ->; reflexivity.
  - intros Hname. destruct Hnone as [Hempty|Hlookup]; [congruence|].
    rewrite Hlookup. reflexivity.
Qed.


(** ** The layers in the constructed object *)

(** X11: the members the profile layer writes under a condition.  The
    suppress-title flag is raised when the profile raises it and is never
    lowered; the background image is the profile's expanded path when the
    raw path is not empty and is not written otherwise, while opacity,
    stretch mode and both alignments are always the profile's. *)
Theorem conditional_profile_members
    (appSettings : CascadiaSettings.t Color) (profileGuid : guid) (profile : Profile.t Color) :
  colorTable_sized default_initialized ->
  schemes_sized (GlobalAppSettings.GetColorSchemes (CascadiaSettings.GlobalSettings appSettings)) ->
  CascadiaSettings.FindProfile appSettings profileGuid = Some profile ->
  exists s,
    new_TerminalSettings appSettings profileGuid = Returns s /\
    _SuppressApplicationTitle s
    = orb (Profile.SuppressApplicationTitle profile)
          (_SuppressApplicationTitle default_initialized) /\
    _BackgroundImage s
    = (if hstring_empty (Profile.BackgroundImagePath profile)
       then _BackgroundImage default_initialized
       else GetExpandedBackgroundImagePath profile) /\
    _BackgroundImageOpacity s = Profile.BackgroundImageOpacity profile /\
    _BackgroundImageStretchMode s = Profile.BackgroundImageStretchMode profile /\
    _BackgroundImageHorizontalAlignment s = Profile.BackgroundImageHorizontalAlignment profile /\
    _BackgroundImageVerticalAlignment s = Profile.BackgroundImageVerticalAlignment profile.
Proof.
  intros Hs Hschemes Hfind.
  pose proof (new_TerminalSettings_found _ _ _ Hs Hschemes Hfind) as Hctor.
  rewrite _ApplyProfileSettings_resolved in Hctor by assumption.
  eexists. split; [exact Hctor|].
  split; [cbn; destruct (Profile.SuppressApplicationTitle profile); reflexivity|].
  repeat split; reflexivity.
Qed.

(** X12: the two layers do not disturb each other.  In the constructed
    object every member the profile layer writes without a condition
    holds the profile's value, also after the global layer has run, and
    every member of the global layer holds the globals' value, whatever
    the profile and its scheme are. *)
Theorem layers_arrive
    (appSettings : CascadiaSettings.t Color) (profileGuid : guid) (profile : Profile.t Color) :
  colorTable_sized default_initialized ->
  schemes_sized (GlobalAppSettings.GetColorSchemes (CascadiaSettings.GlobalSettings appSettings)) ->
  CascadiaSettings.FindProfile appSettings profileGuid = Some profile ->
  let globals := CascadiaSettings.GlobalSettings appSettings in
  exists s,
    new_TerminalSettings appSettings profileGuid = Returns s /\
    (_HistorySize s = Profile.HistorySize profile /\
     _SnapOnInput s = Profile.SnapOnInput profile /\
     _AltGrAliasing s = Profile.AltGrAliasing profile /\
     _CursorHeight s = Profile.CursorHeight profile /\
     _CursorShape s = Profile.CursorShape profile /\
     _ProfileName s = Profile.Name profile /\
     _UseAcrylic s = Profile.UseAcrylic profile /\
     _TintOpacity s = Profile.AcrylicOpacity profile /\
     _FontFace s = Profile.FontFace profile /\
     _FontSize s = Profile.FontSize profile /\
     _FontWeight s = Profile.FontWeight profile /\
     _Padding s = Profile.Padding profile /\
     _Commandline s = Profile.Commandline profile /\
     _ScrollState s = Profile.ScrollState profile /\
     _RetroTerminalEffect s = Profile.RetroTerminalEffect profile /\
     _AntialiasingMode s = Profile.AntialiasingMode profile) /\
    (_InitialRows s = GlobalAppSettings.InitialRows globals /\
     _InitialCols s = GlobalAppSettings.InitialCols globals /\
     _WordDelimiters s = GlobalAppSettings.WordDelimiters globals /\
     _CopyOnSelect s = GlobalAppSettings.CopyOnSelect globals /\
     _ForceFullRepaintRendering s = GlobalAppSettings.ForceFullRepaintRendering globals /\
     _SoftwareRendering s = GlobalAppSettings.SoftwareRendering globals /\
     _ForceVTInput s = GlobalAppSettings.ForceVTInput globals).
Proof.
  intros Hs Hschemes Hfind globals.
  pose proof (new_TerminalSettings_found _ _ _ Hs Hschemes Hfind) as Hctor.
  rewrite _ApplyProfileSettings_resolved in Hctor by assumption.
  eexists. split; [exact Hctor|].
  split; repeat split; reflexivity.
Qed.

(** X13: a launch-argument object whose command line, starting directory
    and tab title are all empty overrides nothing: [BuildSettings] returns
    the constructed object itself, as it does for null arguments. *)
Theorem empty_launch_arguments_change_nothing
    (appSettings : CascadiaSettings.t Color) (args : NewTerminalArgs.t) (s : TerminalSettings) :
  new_TerminalSettings appSettings (GetProfileForArgs appSettings (Some args)) = Returns s ->
  hstring_empty (NewTerminalArgs.Commandline args) = true ->
  hstring_empty (NewTerminalArgs.StartingDirectory args) = true ->
  hstring_empty (NewTerminalArgs.TabTitle args) = true ->
  BuildSettings appSettings (Some args)
  = Returns (GetProfileForArgs appSettings (Some args), s).
Proof.
  intros Hctor Hcmd Hdir Htitle.
  rewrite (BuildSettings_constructed _ (Some args) s Hctor).
  rewrite Hcmd, Hdir, Htitle. destruct s. reflexivity.
Qed.


(** X14: the whole precedence for the three members a launch request can
    override.  The command line is the argument's when that is not empty,
    else the profile's.  The starting directory is the argument's as
    passed, else the profile's evaluated directory when its raw directory
    is not empty, else the default-initialised one.  The starting title is
    the argument's tab title, else the profile's tab title, else the
    profile's name. *)
Theorem launch_precedence
    (appSettings : CascadiaSettings.t Color) (args : NewTerminalArgs.t)
    (profile : Profile.t Color) :
  colorTable_sized default_initialized ->
  schemes_sized (GlobalAppSettings.GetColorSchemes (CascadiaSettings.GlobalSettings appSettings)) ->
  CascadiaSettings.FindProfile appSettings (GetProfileForArgs appSettings (Some args))
  = Some profile ->
  exists s',
    BuildSettings appSettings (Some args)
    = Returns (GetProfileForArgs appSettings (Some args), s') /\
    _Commandline s'
    = (if hstring_empty (NewTerminalArgs.Commandline args)
       then Profile.Commandline profile
       else NewTerminalArgs.Commandline args) /\
    _StartingDirectory s'
    = (if hstring_empty (NewTerminalArgs.StartingDirectory args)
       then (if hstring_empty (Profile.StartingDirectory profile)
             then _StartingDirectory default_initialized
             else GetEvaluatedStartingDirectory profile)
       else NewTerminalArgs.StartingDirectory args) /\
    _StartingTitle s'
    = (if hstring_empty (NewTerminalArgs.TabTitle args)
       then (if hstring_empty (Profile.TabTitle profile)
             then Profile.Name profile
             else Profile.TabTitle profile)
       else NewTerminalArgs.TabTitle args).
Proof.
  intros Hs Hschemes Hfind.
  pose proof (new_TerminalSettings_found _ _ _ Hs Hschemes Hfind) as Hctor.
  rewrite _ApplyProfileSettings_resolved in Hctor by assumption.
  eexists. split; [apply (BuildSettings_constructed _ (Some args)); exact Hctor|].
  repeat split; reflexivity.
Qed.

(** X15: two writes to the colour table.  To the same slot, the second
    value is the one that stays; to different slots, the order of the two
    writes does not matter. *)
Theorem SetColorTableEntry_twice (s : TerminalSettings) (i j : int32_t) (v w : uint32_t) :
  colorTable_sized s -> 0 <= i < 16 -> 0 <= j < 16 ->
  (i = j ->
   (SetColorTableEntry i v ;; SetColorTableEntry j w) s = SetColorTableEntry j w s) /\
  (i <> j ->
   (SetColorTableEntry i v ;; SetColorTableEntry j w) s
   = (SetColorTableEntry j w ;; SetColorTableEntry i v) s).
Proof.
  intros Hs Hi Hj.
  assert (Hput : forall k x, 0 <= k < 16 ->
            colorTable_sized (s <| _colorTable := <[Z.to_nat k := x]> (_colorTable s) |>)).
  { intros k x _. unfold colorTable_sized in *. rewrite <- Hs. apply length_insert. }
  unfold mbind, method_bind.
  rewrite (SetColorTableEntry_in_range s i v), (SetColorTableEntry_in_range s j w)
    by assumption.
  rewrite !SetColorTableEntry_in_range by auto.
  rewrite !colorTable_put_put.
  change (_colorTable (s <| _colorTable := ?t |>)) with t.
  split.
  - intros ->. rewrite list_insert_insert_eq. reflexivity.
  - intros Hne. rewrite list_insert_insert_ne by lia. reflexivity.
Qed.

End Composition.

(** ** The statements on the sample registry *)

Local Abbreviation sample_new_TerminalSettings :=
  (new_TerminalSettings sample_til_color sample_GetEvaluatedStartingDirectory
     sample_GetExpandedBackgroundImagePath sample_default).
Local Abbreviation sample_BuildSettings :=
  (BuildSettings sample_til_color sample_GetEvaluatedStartingDirectory
     sample_GetExpandedBackgroundImagePath sample_GetProfileForArgs sample_default).

Lemma sample_default_sized : colorTable_sized sample_default.
Proof. reflexivity. Qed.

Lemma sample_schemes_sized : schemes_sized sample_schemes.
Proof.
  intros name scheme Hlookup. unfold sample_schemes in Hlookup.
  apply lookup_singleton_Some in Hlookup as [_ <-]. reflexivity.
Qed.

Lemma is_int32_3 : is_int32 3.
Proof. unfold is_int32, INT_MIN, INT_MAX. lia. Qed.

(** C1 does not hold as stated: with index -1 [SetColorTableEntry] ends
    in [std::out_of_range], not in [E_INVALIDARG], and with index 16 (as
    with -1 and [INT_MAX]) [GetColorTableEntry] ends the program. *)
Lemma color_table_not_always_invalid_argument :
  colorTable_sized sample_default /\
  is_int32 (-1) /\ is_int32 16 /\ is_int32 INT_MAX /\
  SetColorTableEntry (-1) 7 sample_default = (Throws out_of_range, sample_default) /\
  fst (SetColorTableEntry (-1) 7 sample_default) <> Throws (ResultException E_INVALIDARG) /\
  GetColorTableEntry 16 sample_default = (Terminates, sample_default) /\
  GetColorTableEntry (-1) sample_default = (Terminates, sample_default) /\
  GetColorTableEntry INT_MAX sample_default = (Terminates, sample_default) /\
  fst (GetColorTableEntry 16 sample_default) <> Throws (ResultException E_INVALIDARG).
Proof.
  split; [reflexivity|].
  do 3 (split; [unfold is_int32, INT_MIN, INT_MAX; lia|]).
  split; [reflexivity|]. split; [discriminate|].
  do 3 (split; [reflexivity|]). discriminate.
Qed.

Lemma color_table_index_checked_witness :
  colorTable_sized sample_default /\ is_int32 3 /\
  GetColorTableEntry 3 sample_default = (Returns 0, sample_default) /\
  SetColorTableEntry 3 7 sample_default
  = (Returns tt, sample_default <| _colorTable := <[3%nat := 7]> (_colorTable sample_default) |>).
Proof.
  split; [exact sample_default_sized|]. split; [exact is_int32_3|].
  destruct (color_table_index_checked sample_default 3 7 sample_default_sized is_int32_3)
    as (Hin & _ & _).
  destruct Hin as ((v & Hv & Hget) & Hset); [lia|].
  split; [|exact Hset].
  rewrite Hget. injection Hv as <-. reflexivity.
Defined.

Lemma construction_fails_only_without_profile_witness :
  colorTable_sized sample_default /\
  schemes_sized (GlobalAppSettings.GetColorSchemes (CascadiaSettings.GlobalSettings sample_appSettings)) /\
  CascadiaSettings.FindProfile sample_appSettings 3%N = None /\
  sample_new_TerminalSettings sample_appSettings 3%N = Throws (ResultException E_INVALIDARG).
Proof.
  split; [exact sample_default_sized|]. split; [exact sample_schemes_sized|].
  split; [reflexivity|].
  apply (construction_fails_only_without_profile sample_til_color
           sample_GetEvaluatedStartingDirectory sample_GetExpandedBackgroundImagePath
           sample_GetProfileForArgs sample_default sample_appSettings 3%N
           sample_default_sized sample_schemes_sized).
  reflexivity.
Defined.

Lemma ApplyColorScheme_unknown_witness :
  sample_schemes !! "Solarized"%string = None /\
  ApplyColorScheme sample_til_color "Solarized" sample_schemes sample_default
  = (Returns false, sample_default).
Proof.
  split; [reflexivity|].
  apply (ApplyColorScheme_unknown sample_til_color "Solarized" sample_schemes sample_default).
  reflexivity.
Defined.

Lemma ApplyColorScheme_known_witness :
  colorTable_sized sample_default /\
  length (ColorScheme.Table sample_scheme) = COLOR_TABLE_SIZE /\
  sample_schemes !! "Campbell"%string = Some sample_scheme /\
  exists s',
    ApplyColorScheme sample_til_color "Campbell" sample_schemes sample_default
    = (Returns true, s') /\
    _DefaultForeground s' = 0xCCCCCC /\
    _colorTable s' = ColorScheme.Table sample_scheme.
Proof.
  split; [exact sample_default_sized|]. split; [reflexivity|]. split; [reflexivity|].
  destruct (ApplyColorScheme_known sample_til_color "Campbell" sample_schemes sample_scheme
              sample_default sample_default_sized eq_refl eq_refl)
    as (s' & Happly & Hfg & _ & _ & _ & Htable & _).
  exists s'. split; [exact Happly|]. split.
  - rewrite Hfg. reflexivity.
  - rewrite Htable. reflexivity.
Defined.

Lemma profile_colors_override_scheme_witness :
  colorTable_sized sample_default /\
  schemes_sized (GlobalAppSettings.GetColorSchemes (CascadiaSettings.GlobalSettings sample_appSettings)) /\
  CascadiaSettings.FindProfile sample_appSettings 1%N = Some sample_PA /\
  exists s,
    sample_new_TerminalSettings sample_appSettings 1%N = Returns s /\
    _DefaultForeground s = 0x112233 /\
    _TabColor s = Some 0x445566.
Proof.
  split; [exact sample_default_sized|]. split; [exact sample_schemes_sized|].
  split; [reflexivity|].
  destruct (profile_colors_override_scheme sample_til_color
              sample_GetEvaluatedStartingDirectory sample_GetExpandedBackgroundImagePath
              sample_GetProfileForArgs sample_default sample_appSettings 1%N sample_PA
              sample_default_sized sample_schemes_sized eq_refl)
    as (s & Hctor & Hfg & _ & _ & _ & Htab & _).
  exists s. split; [exact Hctor|]. split.
  - rewrite (Hfg 0x112233 eq_refl). reflexivity.
  - rewrite (Htab 0x445566 eq_refl). reflexivity.
Defined.

Lemma starting_title_fallback_witness :
  colorTable_sized sample_default /\
  schemes_sized (GlobalAppSettings.GetColorSchemes (CascadiaSettings.GlobalSettings sample_appSettings)) /\
  CascadiaSettings.FindProfile sample_appSettings 1%N = Some sample_PA /\
  exists s,
    sample_new_TerminalSettings sample_appSettings 1%N = Returns s /\
    _StartingTitle s = "Alpha"%string.
Proof.
  split; [exact sample_default_sized|]. split; [exact sample_schemes_sized|].
  split; [reflexivity|].
  destruct (starting_title_fallback sample_til_color
              sample_GetEvaluatedStartingDirectory sample_GetExpandedBackgroundImagePath
              sample_GetProfileForArgs sample_default sample_appSettings 1%N sample_PA
              sample_default_sized sample_schemes_sized eq_refl)
    as (s & Hctor & Htitle & _).
  exists s. split; [exact Hctor|]. rewrite Htitle. reflexivity.
Defined.

(** The other half of the spec's example: PB has the tab title "Custom". *)
Lemma starting_title_PB :
  exists s,
    sample_new_TerminalSettings sample_appSettings 2%N = Returns s /\
    _StartingTitle s = "Custom"%string.
Proof. eexists. split; reflexivity. Qed.

Lemma launch_arguments_override_witness :
  exists s s',
    sample_new_TerminalSettings sample_appSettings
      (sample_GetProfileForArgs sample_appSettings (Some sample_title_only)) = Returns s /\
    sample_BuildSettings sample_appSettings (Some sample_title_only) = Returns (1%N, s') /\
    _Commandline s' = "bash"%string /\
    _StartingTitle s' = "Build"%string /\
    s' = s <| _StartingTitle := "Build"%string |>.
Proof.
  destruct (sample_new_TerminalSettings sample_appSettings
              (sample_GetProfileForArgs sample_appSettings (Some sample_title_only)))
    as [s| |] eqn:Hctor; [|vm_compute in Hctor; discriminate Hctor..].
  destruct (launch_arguments_override sample_til_color
              sample_GetEvaluatedStartingDirectory sample_GetExpandedBackgroundImagePath
              sample_GetProfileForArgs sample_default sample_appSettings sample_title_only
              s Hctor)
    as (s' & Hbuild & Hcmd & _ & Htitle & _ & Honly).
  exists s, s'. split; [reflexivity|]. split; [exact Hbuild|].
  vm_compute in Hctor. injection Hctor as <-.
  split; [rewrite Hcmd; reflexivity|].
  split; [rewrite Htitle; reflexivity|].
  rewrite (Honly eq_refl eq_refl). reflexivity.
Defined.

Lemma starting_directory_sources_witness :
  colorTable_sized sample_default /\
  schemes_sized (GlobalAppSettings.GetColorSchemes (CascadiaSettings.GlobalSettings sample_appSettings)) /\
  CascadiaSettings.FindProfile sample_appSettings 1%N = Some sample_PA /\
  exists s,
    sample_new_TerminalSettings sample_appSettings 1%N = Returns s /\
    _StartingDirectory s = "C:\Users\alpha"%string.
Proof.
  split; [exact sample_default_sized|]. split; [exact sample_schemes_sized|].
  split; [reflexivity|].
  destruct (starting_directory_sources sample_til_color
              sample_GetEvaluatedStartingDirectory sample_GetExpandedBackgroundImagePath
              sample_GetProfileForArgs sample_default sample_appSettings 1%N sample_PA
              sample_default_sized sample_schemes_sized eq_refl)
    as (s & Hctor & Hdir & _).
  exists s. split; [exact Hctor|]. rewrite Hdir. reflexivity.
Defined.

(** ** Further statements on the sample registry *)

Lemma SetColorTableEntry_GetColorTableEntry_witness :
  colorTable_sized sample_default /\ 0 <= 3 < 16 /\ 0 <= 5 < 16 /\
  exists s',
    SetColorTableEntry 3 7 sample_default = (Returns tt, s') /\
    GetColorTableEntry 3 s' = (Returns 7, s') /\
    fst (GetColorTableEntry 5 s') = Returns 0.
Proof.
  split; [exact sample_default_sized|]. split; [lia|]. split; [lia|].
  destruct (SetColorTableEntry_GetColorTableEntry sample_default 3 5 7
              sample_default_sized ltac:(lia) ltac:(lia))
    as (s' & Hset & Hget & Hother).
  exists s'. split; [exact Hset|]. split; [exact Hget|].
  rewrite Hother by lia. reflexivity.
Defined.

Lemma color_table_outside_outcomes_witness :
  colorTable_sized sample_default /\ is_int32 (-1) /\ ~ (0 <= -1 < 16) /\
  GetColorTableEntry (-1) sample_default = (Terminates, sample_default) /\
  SetColorTableEntry (-1) 7 sample_default = (Throws out_of_range, sample_default).
Proof.
  assert (Hi : is_int32 (-1)) by (unfold is_int32, INT_MIN, INT_MAX; lia).
  assert (Hout : ~ (0 <= -1 < 16)) by lia.
  split; [exact sample_default_sized|]. split; [exact Hi|]. split; [exact Hout|].
  destruct (color_table_outside_outcomes sample_default (-1) 7
              sample_default_sized Hi Hout) as [Hget Hset].
  split; [exact Hget|]. apply Hset. lia.
Defined.

Lemma ApplyColorScheme_short_table_witness :
  colorTable_sized sample_default /\
  sample_more_schemes !! "Short"%string = Some sample_short_scheme /\
  (length (ColorScheme.Table sample_short_scheme) <= COLOR_TABLE_SIZE)%nat /\
  exists s',
    ApplyColorScheme sample_til_color "Short" sample_more_schemes sample_default
    = (Returns true, s') /\
    _colorTable s' = [0xAA; 0xBB; 0; 0; 0; 0; 0; 0; 0; 0; 0; 0; 0; 0; 0; 0].
Proof.
  assert (Hlen : (length (ColorScheme.Table sample_short_scheme) <= COLOR_TABLE_SIZE)%nat)
    by (vm_compute; lia).
  split; [exact sample_default_sized|]. split; [reflexivity|]. split; [exact Hlen|].
  eexists. split.
  - apply (ApplyColorScheme_short_table sample_til_color "Short" sample_more_schemes
             sample_short_scheme sample_default sample_default_sized eq_refl Hlen).
  - reflexivity.
Defined.

Lemma ApplyColorScheme_long_table_witness :
  colorTable_sized sample_default /\
  sample_more_schemes !! "Long"%string = Some sample_long_scheme /\
  (COLOR_TABLE_SIZE < length (ColorScheme.Table sample_long_scheme))%nat /\
  Z.of_nat (length (ColorScheme.Table sample_long_scheme)) <= INT_MAX /\
  exists s',
    ApplyColorScheme sample_til_color "Long" sample_more_schemes sample_default
    = (Throws (ResultException E_INVALIDARG), s') /\
    _DefaultForeground s' = 0x010101 /\
    _colorTable s' = seqZ 0x100 16.
Proof.
  assert (Hlen : (COLOR_TABLE_SIZE < length (ColorScheme.Table sample_long_scheme))%nat)
    by (vm_compute; lia).
  assert (Hmax : Z.of_nat (length (ColorScheme.Table sample_long_scheme)) <= INT_MAX)
    by (vm_compute; discriminate).
  split; [exact sample_default_sized|]. split; [reflexivity|].
  split; [exact Hlen|]. split; [exact Hmax|].
  eexists. split.
  - apply (ApplyColorScheme_long_table sample_til_color "Long" sample_more_schemes
             sample_long_scheme sample_default sample_default_sized eq_refl Hlen Hmax).
  - split; reflexivity.
Defined.

Lemma ApplyColorScheme_frame_witness :
  colorTable_sized sample_default /\
  colorTable_sized
    (snd (ApplyColorScheme sample_til_color "Long" sample_more_schemes sample_default)) /\
  _Commandline
    (snd (ApplyColorScheme sample_til_color "Long" sample_more_schemes sample_default))
  = _Commandline sample_default.
Proof.
  split; [exact sample_default_sized|].
  destruct (ApplyColorScheme_frame sample_til_color "Long" sample_more_schemes
              sample_default sample_default_sized) as [Hsized Hframe].
  split; [exact Hsized|]. rewrite Hframe. reflexivity.
Defined.

Lemma ApplyColorScheme_last_wins_witness :
  colorTable_sized sample_default /\ schemes_sized sample_schemes /\
  is_Some (sample_schemes !! "Campbell"%string) /\
  (ApplyColorScheme sample_til_color "Campbell" sample_schemes ;;
   ApplyColorScheme sample_til_color "Campbell" sample_schemes) sample_default
  = ApplyColorScheme sample_til_color "Campbell" sample_schemes sample_default.
Proof.
  assert (Hsome : is_Some (sample_schemes !! "Campbell"%string))
    by (eexists; reflexivity).
  split; [exact sample_default_sized|]. split; [exact sample_schemes_sized|].
  split; [exact Hsome|].
  apply (ApplyColorScheme_last_wins sample_til_color "Campbell" "Campbell" sample_schemes
           sample_default sample_default_sized sample_schemes_sized Hsome Hsome).
Defined.

Lemma construction_outcomes_witness :
  colorTable_sized sample_default /\
  forall e,
    sample_new_TerminalSettings sample_appSettings 3%N = Throws e ->
    e = ResultException E_INVALIDARG.
Proof.
  split; [exact sample_default_sized|]. intros e He.
  destruct (construction_outcomes sample_til_color sample_GetEvaluatedStartingDirectory
              sample_GetExpandedBackgroundImagePath sample_GetProfileForArgs
              sample_default sample_appSettings 3%N sample_default_sized) as [Hctor _].
  rewrite He in Hctor. exact (proj1 Hctor).
Defined.

Lemma scheme_fills_unset_colors_witness :
  colorTable_sized sample_default /\
  CascadiaSettings.FindProfile sample_appSettings 1%N = Some sample_PA /\
  hstring_empty (Profile.ColorSchemeName sample_PA) = false /\
  GlobalAppSettings.GetColorSchemes (CascadiaSettings.GlobalSettings sample_appSettings)
    !! Profile.ColorSchemeName sample_PA = Some sample_scheme /\
  length (ColorScheme.Table sample_scheme) = COLOR_TABLE_SIZE /\
  exists s,
    sample_new_TerminalSettings sample_appSettings 1%N = Returns s /\
    _DefaultBackground s = 0x0C0C0C /\
    _colorTable s = ColorScheme.Table sample_scheme.
Proof.
  split; [exact sample_default_sized|]. do 4 (split; [reflexivity|]).
  destruct (scheme_fills_unset_colors sample_til_color sample_GetEvaluatedStartingDirectory
              sample_GetExpandedBackgroundImagePath sample_default sample_appSettings 1%N
              sample_PA sample_scheme sample_default_sized eq_refl eq_refl eq_refl eq_refl)
    as (s & Hctor & Htable & _ & Hbg & _).
  exists s. split; [exact Hctor|]. split.
  - rewrite (Hbg eq_refl). reflexivity.
  - rewrite Htable. reflexivity.
Defined.

Lemma missing_scheme_keeps_defaults_witness :
  colorTable_sized sample_default /\
  CascadiaSettings.FindProfile sample_appSettings 2%N = Some sample_PB /\
  GlobalAppSettings.GetColorSchemes (CascadiaSettings.GlobalSettings sample_appSettings)
    !! Profile.ColorSchemeName sample_PB = None /\
  exists s,
    sample_new_TerminalSettings sample_appSettings 2%N = Returns s /\
    _colorTable s = _colorTable sample_default /\
    _DefaultForeground s = 0xF2F2F2.
Proof.
  split; [exact sample_default_sized|]. do 2 (split; [reflexivity|]).
  destruct (missing_scheme_keeps_defaults sample_til_color
              sample_GetEvaluatedStartingDirectory sample_GetExpandedBackgroundImagePath
              sample_default sample_appSettings 2%N sample_PB sample_default_sized eq_refl
              (or_intror eq_refl))
    as (s & Hctor & Htable & Hfg & _).
  exists s. split; [exact Hctor|]. split; [exact Htable|].
  rewrite (Hfg eq_refl). reflexivity.
Defined.

Lemma conditional_profile_members_witness :
  colorTable_sized sample_default /\
  schemes_sized (GlobalAppSettings.GetColorSchemes (CascadiaSettings.GlobalSettings sample_appSettings)) /\
  CascadiaSettings.FindProfile sample_appSettings 2%N = Some sample_PB /\
  exists s,
    sample_new_TerminalSettings sample_appSettings 2%N = Returns s /\
    _SuppressApplicationTitle s = true /\
    _BackgroundImage s = ""%string.
Proof.
  split; [exact sample_default_sized|]. split; [exact sample_schemes_sized|].
  split; [reflexivity|].
  destruct (conditional_profile_members sample_til_color
              sample_GetEvaluatedStartingDirectory sample_GetExpandedBackgroundImagePath
              sample_default sample_appSettings 2%N sample_PB
              sample_default_sized sample_schemes_sized eq_refl)
    as (s & Hctor & Hsuppress & Himage & _).
  exists s. split; [exact Hctor|]. split.
  - rewrite Hsuppress. reflexivity.
  - rewrite Himage. reflexivity.
Defined.

Lemma layers_arrive_witness :
  colorTable_sized sample_default /\
  schemes_sized (GlobalAppSettings.GetColorSchemes (CascadiaSettings.GlobalSettings sample_appSettings)) /\
  CascadiaSettings.FindProfile sample_appSettings 1%N = Some sample_PA /\
  exists s,
    sample_new_TerminalSettings sample_appSettings 1%N = Returns s /\
    _HistorySize s = 9001 /\
    _InitialRows s = 30.
Proof.
  split; [exact sample_default_sized|]. split; [exact sample_schemes_sized|].
  split; [reflexivity|].
  destruct (layers_arrive sample_til_color
              sample_GetEvaluatedStartingDirectory sample_GetExpandedBackgroundImagePath
              sample_default sample_appSettings 1%N sample_PA
              sample_default_sized sample_schemes_sized eq_refl)
    as (s & Hctor & Hprofile & Hglobals).
  exists s. split; [exact Hctor|]. split.
  - rewrite (proj1 Hprofile). reflexivity.
  - rewrite (proj1 Hglobals). reflexivity.
Defined.

Lemma empty_launch_arguments_change_nothing_witness :
  exists s,
    sample_new_TerminalSettings sample_appSettings
      (sample_GetProfileForArgs sample_appSettings (Some sample_no_override)) = Returns s /\
    hstring_empty (NewTerminalArgs.Commandline sample_no_override) = true /\
    hstring_empty (NewTerminalArgs.StartingDirectory sample_no_override) = true /\
    hstring_empty (NewTerminalArgs.TabTitle sample_no_override) = true /\
    sample_BuildSettings sample_appSettings (Some sample_no_override) = Returns (1%N, s).
Proof.
  destruct (sample_new_TerminalSettings sample_appSettings
              (sample_GetProfileForArgs sample_appSettings (Some sample_no_override)))
    as [s| |] eqn:Hctor; [|vm_compute in Hctor; discriminate Hctor..].
  exists s. split; [reflexivity|]. do 3 (split; [reflexivity|]).
  apply (empty_launch_arguments_change_nothing sample_til_color
           sample_GetEvaluatedStartingDirectory sample_GetExpandedBackgroundImagePath
           sample_GetProfileForArgs sample_default sample_appSettings sample_no_override
           s Hctor eq_refl eq_refl eq_refl).
Defined.

Lemma launch_precedence_witness :
  colorTable_sized sample_default /\
  schemes_sized (GlobalAppSettings.GetColorSchemes (CascadiaSettings.GlobalSettings sample_appSettings)) /\
  CascadiaSettings.FindProfile sample_appSettings
    (sample_GetProfileForArgs sample_appSettings (Some sample_args)) = Some sample_PA /\
  exists s',
    sample_BuildSettings sample_appSettings (Some sample_args) = Returns (1%N, s') /\
    _Commandline s' = "zsh -l"%string /\
    _StartingDirectory s' = "C:\Users\alpha"%string /\
    _StartingTitle s' = "Alpha"%string.
Proof.
  split; [exact sample_default_sized|]. split; [exact sample_schemes_sized|].
  split; [reflexivity|].
  destruct (launch_precedence sample_til_color
              sample_GetEvaluatedStartingDirectory sample_GetExpandedBackgroundImagePath
              sample_GetProfileForArgs sample_default sample_appSettings sample_args sample_PA
              sample_default_sized sample_schemes_sized eq_refl)
    as (s' & Hbuild & Hcmd & Hdir & Htitle).
  exists s'. split; [exact Hbuild|].
  split; [rewrite Hcmd; reflexivity|].
  split; [rewrite Hdir; reflexivity|].
  rewrite Htitle. reflexivity.
Defined.

Lemma SetColorTableEntry_twice_witness :
  colorTable_sized sample_default /\ 0 <= 1 < 16 /\ 0 <= 2 < 16 /\
  (SetColorTableEntry 1 7 ;; SetColorTableEntry 2 9) sample_default
  = (SetColorTableEntry 2 9 ;; SetColorTableEntry 1 7) sample_default.
Proof.
  split; [exact sample_default_sized|]. split; [lia|]. split; [lia|].
  apply (SetColorTableEntry_twice sample_default 1 2 7 9
           sample_default_sized ltac:(lia) ltac:(lia)).
  lia.
Defined.
